(** * MarketView: the stock browser of the AkBS front end

    A shallow embedding of [src/frontend/src/views/MarketView.vue]: the
    component state, the [filteredStocks] computed property, the two HTTP
    operations [fetchStocks] and [loadChartData], the click handler
    [selectStock] and the chart builder [renderChart].

    Conventions of the embedding.
    - A JavaScript string is a [string] holding its UTF-8 bytes.  A substring
      of the text is a substring of the bytes and conversely, because UTF-8
      is self-synchronising.
    - A JavaScript number is an IEEE 754 binary64 value, that is a primitive
      [float]; [a > b] is [PrimFloat.ltb b a].
    - An array is an object of a store ([Heap]) and is named by its address,
      so that "the same array" and "a new array" are different things.
    - An [async] function is a tree of requests ([Async]): every
      [await axios.get(url)] is a node that holds the state the function
      leaves while it waits, and whose children are indexed by the outcome
      of the request and by the state found when the function resumes. *)

From Stdlib Require Import List String Ascii Bool Arith Lia.
From Stdlib Require Import Floats.PrimFloat Floats.SpecFloat Floats.FloatOps Floats.FloatAxioms.
From Stdlib Require Import ZArith.
Import ListNotations.

Set Implicit Arguments.

Local Open Scope list_scope.
Local Open Scope nat_scope.

(** ** Strings *)

Module JsString.

(** [String.prototype.includes]: [includes s q] holds when [q] occurs in
    [s] at some position. *)
Fixpoint includes (s q : string) : bool :=
  if String.prefix q s then true
  else match s with
       | EmptyString => false
       | String _ s' => includes s' q
       end.

(** The ASCII part of [String.prototype.toLowerCase]: the letters [A]-[Z]
    go to [a]-[z] and every other byte stays.  It is the JavaScript
    function on every string whose cased letters are ASCII, which covers
    the strings used as concrete inputs below. *)
Definition lower_ascii (c : ascii) : ascii :=
  let n := nat_of_ascii c in
  if (65 <=? n) && (n <=? 90) then ascii_of_nat (n + 32) else c.

Fixpoint toLowerCaseASCII (s : string) : string :=
  match s with
  | EmptyString => EmptyString
  | String c s' => String (lower_ascii c) (toLowerCaseASCII s')
  end.

(** [isEmpty s] is the test [!s] on a string: only [''] is falsy. *)
Definition isEmpty (s : string) : bool :=
  match s with
  | EmptyString => true
  | String _ _ => false
  end.

End JsString.

(** ** Data model *)

(** A stock descriptor, an element of the array answered by [/stocks/list]. *)
Record Stock := mkStock {
  symbol : string;
  name : string
}.

(** A row of the time series answered by [/stocks/{symbol}/kline]. *)
Module Item.
Record t := mk {
  date : string;
  open : float;
  close : float;
  low : float;
  high : float;
  volume : float;
  ma20 : float;
  vol_ma5 : float;
  macd : float;
  diff : float;
  dea : float;
  k : float;
  d : float;
  j : float
}.
End Item.

(** The body of a kline response: [{data: [...]}]. *)
Record KlineResponse := mkKline {
  data : list Item.t
}.

(** ** The store of stock arrays *)

Definition addr := nat.
Definition Heap := list (list Stock).

(** A new array object: it gets the first address that is not in use. *)
Definition alloc (h : Heap) (v : list Stock) : Heap * addr :=
  (h ++ [v], List.length h).

Definition deref (h : Heap) (a : addr) : option (list Stock) :=
  nth_error h a.

(** [allocated h a]: [a] names an array object of [h]. *)
Definition allocated (h : Heap) (a : addr) : Prop := a < List.length h.

(** ** The chart option handed to ECharts *)

(** The argument of a colour callback of a series. *)
Record Params := mkParams {
  dataIndex : nat;
  value : float
}.

Module XAxis.
Record t := mk {
  type : string;
  data : list string;
  gridIndex : nat
}.
End XAxis.

Module Series.
Inductive Data :=
| Tuples (rows : list (list float))
| Values (vs : list float).

Inductive ItemStyle :=
| NoItemStyle
| Colors (color color0 borderColor borderColor0 : string)
| ColorOf (color : Params -> option string).

Record t := mk {
  name : string;
  type : string;
  data : Data;
  itemStyle : ItemStyle;
  xAxisIndex : nat;
  yAxisIndex : nat
}.

Definition size (dt : Data) : nat :=
  match dt with
  | Tuples rows => List.length rows
  | Values vs => List.length vs
  end.
End Series.

(** The [option] object of [renderChart].  Its [tooltip], [axisPointer],
    [grid], [yAxis] and [dataZoom] entries, and the [smooth] and [lineStyle]
    entries of the line series, are constants that hold no data of the time
    series; they are left out. *)
Record EChartsOption := mkOption {
  title_text : string;
  xAxis : list XAxis.t;
  series : list Series.t
}.

(** ** Component state *)

(** The DOM node behind [chartRef]. *)
Inductive Element := EchartsDom.

(** An ECharts instance: the node it was initialised on and the option it
    was last given. *)
Record ChartInstance := mkInstance {
  dom : Element;
  shown : option EChartsOption
}.

Definition echarts_init (el : Element) : ChartInstance :=
  {| dom := el; shown := None |}.

Definition setOption (opt : EChartsOption) (inst : ChartInstance) : ChartInstance :=
  {| dom := dom inst; shown := Some opt |}.

(** The refs of the component, the store of arrays they point into, and the
    instances that were disposed of (most recent first). *)
Record State := mkState {
  heap : Heap;
  stocks : addr;
  searchQuery : string;
  currentSymbol : string;
  chartInstance : option ChartInstance;
  chartRef : option Element;
  loading : bool;
  error : option string;
  disposed : list ChartInstance
}.

Definition set_heap_stocks (h : Heap) (a : addr) (st : State) : State :=
  mkState h a (searchQuery st) (currentSymbol st) (chartInstance st)
          (chartRef st) (loading st) (error st) (disposed st).

Definition set_heap (h : Heap) (st : State) : State :=
  set_heap_stocks h (stocks st) st.

Definition set_currentSymbol (s : string) (st : State) : State :=
  mkState (heap st) (stocks st) (searchQuery st) s (chartInstance st)
          (chartRef st) (loading st) (error st) (disposed st).

Definition set_chartInstance (c : option ChartInstance) (st : State) : State :=
  mkState (heap st) (stocks st) (searchQuery st) (currentSymbol st) c
          (chartRef st) (loading st) (error st) (disposed st).

Definition set_loading (b : bool) (st : State) : State :=
  mkState (heap st) (stocks st) (searchQuery st) (currentSymbol st)
          (chartInstance st) (chartRef st) b (error st) (disposed st).

Definition set_error (e : option string) (st : State) : State :=
  mkState (heap st) (stocks st) (searchQuery st) (currentSymbol st)
          (chartInstance st) (chartRef st) (loading st) e (disposed st).

Definition dispose (st : State) : State :=
  match chartInstance st with
  | Some inst =>
      mkState (heap st) (stocks st) (searchQuery st) (currentSymbol st)
              (chartInstance st) (chartRef st) (loading st) (error st)
              (inst :: disposed st)
  | None => st
  end.

(** The state of a component that was just set up: [stocks] is [ref([])],
    [searchQuery] and [currentSymbol] are [ref('')], [loading] is
    [ref(false)], the other refs are [ref(null)]; [chartRef] is filled in
    when the template is mounted. *)
Definition setup (mounted : option Element) : State :=
  {| heap := [[]]; stocks := 0; searchQuery := ""; currentSymbol := "";
     chartInstance := None; chartRef := mounted; loading := false;
     error := None; disposed := [] |}.

(** The array behind [stocks.value]. *)
Definition stored (st : State) : option (list Stock) :=
  deref (heap st) (stocks st).

(** The option the chart instance currently shows. *)
Definition handed (st : State) : option EChartsOption :=
  match chartInstance st with
  | Some inst => shown inst
  | None => None
  end.

Definition API_BASE : string := "http://localhost:8000".

Definition red : string := "#ef232a".
Definition green : string := "#14b143".

(** [a > b] on numbers. *)
Definition js_gt (a b : float) : bool := PrimFloat.ltb b a.

(** ** [filteredStocks] *)

Section Filter.

(** [String.prototype.toLowerCase], a built-in of the host. *)
Variable toLowerCase : string -> string.

(** The predicate given to [filter]. *)
Definition matches (query : string) (s : Stock) : bool :=
  JsString.includes (symbol s) query
  || JsString.includes (toLowerCase (name s)) query.

(** The computed property: the address of the array it returns, and the
    store after it ran.  With an empty query it returns [stocks.value];
    otherwise [Array.prototype.filter] makes a new array.  The last branch
    is for an address outside the store, which [stocks] never holds (see
    [wf] and the lemmas on it). *)
Definition filteredStocks (st : State) : State * addr :=
  if JsString.isEmpty (searchQuery st) then (st, stocks st)
  else
    let query := toLowerCase (searchQuery st) in
    match stored st with
    | Some items =>
        let (h, a) := alloc (heap st) (filter (matches query) items) in
        (set_heap h st, a)
    | None => (st, stocks st)
    end.

(** The elements of the array [filteredStocks] returns. *)
Definition filtered (st : State) : option (list Stock) :=
  let (st', a) := filteredStocks st in deref (heap st') a.

End Filter.

(** ** [renderChart] *)

Local Open Scope string_scope.

(** The [option] object, from the column arrays extracted of [data]. *)
Definition renderChart_option (symbol : string) (data : list Item.t) : EChartsOption :=
  let dates := map Item.date data in
  let klineData :=
    map (fun item => [Item.open item; Item.close item; Item.low item; Item.high item]) data in
  let volumes := map Item.volume data in
  let volColors :=
    map (fun item => if js_gt (Item.close item) (Item.open item) then red else green) data in
  let ma20 := map Item.ma20 data in
  let volMa5 := map Item.vol_ma5 data in
  let macd := map Item.macd data in
  let diff := map Item.diff data in
  let dea := map Item.dea data in
  let k := map Item.k data in
  let d := map Item.d data in
  let j := map Item.j data in
  {| title_text := symbol ++ " K线图";
     xAxis :=
       [ XAxis.mk "category" dates 0;
         XAxis.mk "category" dates 1;
         XAxis.mk "category" dates 2;
         XAxis.mk "category" dates 3 ];
     series :=
       [ Series.mk "日K" "candlestick" (Series.Tuples klineData)
           (Series.Colors "#ef232a" "#14b143" "#ef232a" "#14b143") 0 0;
         Series.mk "MA20" "line" (Series.Values ma20) Series.NoItemStyle 0 0;
         Series.mk "Volume" "bar" (Series.Values volumes)
           (Series.ColorOf (fun params => nth_error volColors (dataIndex params))) 1 1;
         Series.mk "VOL_MA5" "line" (Series.Values volMa5) Series.NoItemStyle 1 1;
         Series.mk "MACD" "bar" (Series.Values macd)
           (Series.ColorOf (fun params =>
              Some (if js_gt (value params) 0%float then "#ef232a" else "#14b143"))) 2 2;
         Series.mk "DIFF" "line" (Series.Values diff) Series.NoItemStyle 2 2;
         Series.mk "DEA" "line" (Series.Values dea) Series.NoItemStyle 2 2;
         Series.mk "K" "line" (Series.Values k) Series.NoItemStyle 3 3;
         Series.mk "D" "line" (Series.Values d) Series.NoItemStyle 3 3;
         Series.mk "J" "line" (Series.Values j) Series.NoItemStyle 3 3 ] |}.

Definition renderChart (symbol : string) (data : list Item.t) (st : State) : State :=
  match chartRef st with
  | None => st
  | Some el =>
      let st := dispose st in
      let st := set_chartInstance (Some (echarts_init el)) st in
      let option := renderChart_option symbol data in
      set_chartInstance (option_map (setOption option) (chartInstance st)) st
  end.

(** ** Requests *)

(** What [await axios.get(url)] gives: a response, of which the code reads
    [res.data], or a thrown error. *)
Inductive AxiosResult (R : Type) :=
| Resolved (res_data : R)
| Rejected.
Arguments Rejected {R}.

(** What the kline endpoint can put in [res.data]: an object whose [data]
    is an array of rows; a value whose [data] is not an array, on which
    [data.map] throws; [null] or [undefined], on which reading
    [res.data.data] throws. *)
Inductive KlineBody :=
| WithRows (r : KlineResponse)
| WithoutRows
| NoBody.

(** The two shapes of body the code reads. *)
Inductive BodyType := StockArray | KlineObject.

Definition body (t : BodyType) : Type :=
  match t with
  | StockArray => list Stock
  | KlineObject => KlineBody
  end.

(** An [async] function that ends with a value of [A].  At an [await] it
    leaves the state [pending] to whatever runs in the meantime, and its
    rest [k] takes the response and the state it finds when it resumes. *)
Inductive Async (A : Type) : Type :=
| Return (a : A)
| AxiosGet (t : BodyType) (url : string) (pending : A)
    (k : AxiosResult (body t) -> A -> Async A).
Arguments Return {A} a.
Arguments AxiosGet {A} t url pending k.

(** How a block of statements ends: at its end, or by a [throw]. *)
Inductive Completion :=
| Normal (st : State)
| Throw (st : State).

(** The state a block leaves, however it ends. *)
Definition state_of (c : Completion) : State :=
  match c with
  | Normal st => st
  | Throw st => st
  end.

(** [renderChart(symbol, data)] on a [data] that is not an array: the
    guard, [dispose] and [echarts.init] run as on an array, then
    [data.map] throws. *)
Definition renderChart_not_array (st : State) : Completion :=
  match chartRef st with
  | None => Normal st
  | Some el =>
      let st := dispose st in
      let st := set_chartInstance (Some (echarts_init el)) st in
      Throw st
  end.

(** ** [loadChartData], [selectStock], [fetchStocks] *)

(** The [try] block of [loadChartData] from the [await] on: the request
    may be rejected, [res.data.data] and [renderChart] may throw. *)
Definition loadChartData_try (symbol : string) (res : AxiosResult KlineBody)
    (st : State) : Completion :=
  match res with
  | Rejected => Throw st
  | Resolved NoBody => Throw st
  | Resolved WithoutRows => renderChart_not_array st
  | Resolved (WithRows res_data) => Normal (renderChart symbol (data res_data) st)
  end.

(** [try]/[catch]/[finally] around one awaited request. *)
Definition loadChartData (symbol : string) (st : State) : Async State :=
  let st := set_loading true st in
  let st := set_error None st in
  AxiosGet KlineObject (API_BASE ++ "/stocks/" ++ symbol ++ "/kline") st
    (fun res st =>
       let st :=
         match loadChartData_try symbol res st with
         | Normal st => st
         | Throw st => set_error (Some "无法加载K线数据") st
         end in
       Return (set_loading false st)).

Definition selectStock (stock : Stock) (st : State) : Async State :=
  if String.eqb (currentSymbol st) (symbol stock) then Return st
  else
    let st := set_currentSymbol (symbol stock) st in
    loadChartData (symbol stock) st.

(** [selectStock] is called without [await]: [fetchStocks] has nothing left
    to do after the call, so the requests and the state changes come in the
    order of the sequential composition below. *)
Definition fetchStocks (st : State) : Async State :=
  AxiosGet StockArray (API_BASE ++ "/stocks/list") st
    (fun res st =>
       match res with
       | Resolved res_data =>
           let (h, a) := alloc (heap st) res_data in
           let st := set_heap_stocks h a st in
           match res_data with
           | stock0 :: _ => selectStock stock0 st
           | [] => Return st
           end
       | Rejected => Return (set_error (Some "无法加载股票列表") st)
       end).

(** [onMounted]. *)
Definition onMounted (st : State) : Async State := fetchStocks st.

(** ** Running against a network *)

(** A network answers the [n]-th request of a run, by its body type and
    URL. *)
Definition Network := forall t : BodyType, nat -> string -> AxiosResult (body t).

(** [run net n p]: the URLs requested by [p], in order, and its result, when
    [n] requests were made before and nothing else runs while a request of
    [p] is pending: the rest of [p] resumes on the state [p] left. *)
Fixpoint run (A : Type) (net : Network) (n : nat) (p : Async A) : list string * A :=
  match p with
  | Return a => ([], a)
  | AxiosGet t url pending k =>
      let (urls, a) := run net (S n) (k (net t n url) pending) in
      (url :: urls, a)
  end.

(** [overlap net p q]: the handler [q] starts while the first request of
    [p] is pending, and is run to its end; then the response to [p] comes
    and the rest of [p] resumes on the state [q] left.  When [p] awaits
    nothing, [q] runs after it. *)
Definition overlap (A : Type) (net : Network) (p : Async A) (q : A -> Async A)
  : list string * A :=
  match p with
  | Return a => run net 0 (q a)
  | AxiosGet t url pending k =>
      let (urls, a) := run net 1 (q pending) in
      let (urls', a') := run net (S (List.length urls)) (k (net t 0 url) a) in
      (url :: urls ++ urls', a')%list
  end.

Definition requests (A : Type) (net : Network) (p : Async A) : list string :=
  fst (run net 0 p).

Definition result (A : Type) (net : Network) (p : Async A) : A :=
  snd (run net 0 p).

(** * Vocabulary of the properties *)

(** [occurs_in q s]: [q] is a substring of [s]. *)
Definition occurs_in (q s : string) : Prop :=
  exists pre post, s = pre ++ q ++ post.

(** The URLs of the two endpoints. *)
Definition list_url : string := API_BASE ++ "/stocks/list".
Definition kline_url (symbol : string) : string :=
  API_BASE ++ "/stocks/" ++ symbol ++ "/kline".

(** The error shown when the kline request fails. *)
Definition kline_error : string := "无法加载K线数据".

(** [stocks.value] names an array of the store. *)
Definition wf (st : State) : Prop := allocated (heap st) (stocks st).

(** [Sublist l m]: [l] is [m] with some elements left out, the others in
    their order. *)
Inductive Sublist (A : Type) : list A -> list A -> Prop :=
| Sublist_nil : Sublist [] []
| Sublist_keep x l m : Sublist l m -> Sublist (x :: l) (x :: m)
| Sublist_drop x l m : Sublist l m -> Sublist l (x :: m).

(** The series of an option with a given name. *)
Definition find_series (nm : string) (opt : EChartsOption) : option Series.t :=
  find (fun s => String.eqb (Series.name s) nm) (series opt).

(** The indicator series and the field of a row each of them shows. *)
Definition indicators : list (string * (Item.t -> float)) :=
  [ ("MA20", Item.ma20); ("VOL_MA5", Item.vol_ma5); ("MACD", Item.macd);
    ("DIFF", Item.diff); ("DEA", Item.dea);
    ("K", Item.k); ("D", Item.d); ("J", Item.j) ].

(** The filter as the specification words it: a stock is kept when its
    symbol or its name contains the query, letter case ignored on both
    sides. *)
Section SpecFilter.
Variable toLowerCase : string -> string.

Definition contains_ignoring_case (s q : string) : bool :=
  JsString.includes (toLowerCase s) (toLowerCase q).

Definition spec_matches (q : string) (s : Stock) : bool :=
  contains_ignoring_case (symbol s) q || contains_ignoring_case (name s) q.

Definition spec_filter (q : string) (items : list Stock) : list Stock :=
  filter (spec_matches q) items.
End SpecFilter.

(** What a user, or the component itself, does after the list was fetched:
    [v-model] writes the search box into [searchQuery], the template reads
    [filteredStocks], a click calls [selectStock], which may call
    [loadChartData] and [renderChart]. *)
Definition set_searchQuery (q : string) (st : State) : State :=
  mkState (heap st) (stocks st) q (currentSymbol st) (chartInstance st)
          (chartRef st) (loading st) (error st) (disposed st).

Inductive Action :=
| Typing (q : string)
| Filtering
| Selection (net : Network) (stock : Stock)
| Loading (net : Network) (symbol : string)
| Rendering (symbol : string) (data : list Item.t).

Definition perform (toLowerCase : string -> string) (st : State) (a : Action) : State :=
  match a with
  | Typing q => set_searchQuery q st
  | Filtering => fst (filteredStocks toLowerCase st)
  | Selection net stock => result net (selectStock stock st)
  | Loading net symbol => result net (loadChartData symbol st)
  | Rendering symbol data => renderChart symbol data st
  end.

(** The columns of an option built from the rows [data]: there are four
    category axes, one per grid, and ten series, in the order of the
    source; every axis and every series has one entry per row; at each
    index every axis holds the date of the row, the candlestick series the
    tuple [[open, close, low, high]] and the volume series the volume. *)
Definition parallel_columns (data : list Item.t) (opt : EChartsOption) : Prop :=
  map XAxis.gridIndex (xAxis opt) = [0; 1; 2; 3]
  /\ Forall (fun ax => XAxis.type ax = "category") (xAxis opt)
  /\ Forall (fun ax => List.length (XAxis.data ax) = List.length data) (xAxis opt)
  /\ Forall (fun s => Series.size (Series.data s) = List.length data) (series opt)
  /\ map Series.name (series opt) =
     ["日K"; "MA20"; "Volume"; "VOL_MA5"; "MACD"; "DIFF"; "DEA"; "K"; "D"; "J"]
  /\ exists rows volumes,
       option_map Series.data (find_series "日K" opt) = Some (Series.Tuples rows)
       /\ option_map Series.data (find_series "Volume" opt) = Some (Series.Values volumes)
       /\ forall i row, nth_error data i = Some row ->
            Forall (fun ax => nth_error (XAxis.data ax) i = Some (Item.date row)) (xAxis opt)
            /\ nth_error rows i =
               Some [Item.open row; Item.close row; Item.low row; Item.high row]
            /\ nth_error volumes i = Some (Item.volume row).

(** Every indicator series holds, at each index, the field of the row, and
    nothing else. *)
Definition indicator_columns (data : list Item.t) (opt : EChartsOption) : Prop :=
  forall nm field, In (nm, field) indicators ->
    exists vs,
      option_map Series.data (find_series nm opt) = Some (Series.Values vs)
      /\ List.length vs = List.length data
      /\ forall i row, nth_error data i = Some row -> nth_error vs i = Some (field row).

(** The colour callback of the volume series: red exactly for the rows
    whose close is above their open, green for the others, among which the
    rows whose close and open are equal. *)
Definition volume_colours (data : list Item.t) (opt : EChartsOption) : Prop :=
  exists color,
    option_map Series.itemStyle (find_series "Volume" opt) = Some (Series.ColorOf color)
    /\ forall i row v, nth_error data i = Some row ->
         (color (mkParams i v) = Some red <-> js_gt (Item.close row) (Item.open row) = true)
         /\ (color (mkParams i v) = Some green <-> js_gt (Item.close row) (Item.open row) = false)
         /\ (PrimFloat.eqb (Item.close row) (Item.open row) = true ->
             color (mkParams i v) = Some green)
         /\ (Item.close row = Item.open row -> color (mkParams i v) = Some green).

(** ** The template and its events *)

(** The error shown when the list request fails. *)
Definition list_error : string := "无法加载股票列表".

(** A [stock-item] of the side bar: the two spans and the [active] class. *)
Record StockItem := mkStockItem {
  item_symbol : string;
  item_name : string;
  active : bool
}.

(** What the template shows: the [v-for] over [filteredStocks], and the two
    overlays under [v-if="loading"] and [v-if="error"]. *)
Record View := mkView {
  stock_list : list StockItem;
  loading_overlay : bool;
  error_overlay : option string
}.

Definition stock_item (st : State) (stock : Stock) : StockItem :=
  {| item_symbol := symbol stock;
     item_name := name stock;
     active := String.eqb (currentSymbol st) (symbol stock) |}.

(** [v-if="error"] shows the overlay when [error] is truthy: not [null] and
    not the empty string. *)
Definition template (toLowerCase : string -> string) (st : State) : View :=
  {| stock_list :=
       match filtered toLowerCase st with
       | Some items => map (stock_item st) items
       | None => []
       end;
     loading_overlay := loading st;
     error_overlay :=
       match error st with
       | Some e => if JsString.isEmpty e then None else Some e
       | None => None
       end |}.

(** The events of the template: [v-model] on the search box, and
    [@click="selectStock(stock)"] on the [i]-th item shown.  The search box
    also names a handler [filterStocks] for [@input], which the script does
    not define; it changes no state.  An event is handled to its end,
    against the network of its time, before the next one comes. *)
Inductive Event :=
| Input (q : string)
| Click (net : Network) (i : nat).

Definition handle (toLowerCase : string -> string) (st : State) (e : Event)
  : list string * State :=
  match e with
  | Input q => ([], set_searchQuery q st)
  | Click net i =>
      match filtered toLowerCase st with
      | Some items =>
          match nth_error items i with
          | Some stock => run net 0 (selectStock stock st)
          | None => ([], st)
          end
      | None => ([], st)
      end
  end.

Fixpoint handle_all (toLowerCase : string -> string) (st : State) (es : list Event)
  : list string * State :=
  match es with
  | [] => ([], st)
  | e :: es' =>
      let (urls, st1) := handle toLowerCase st e in
      let (urls', st2) := handle_all toLowerCase st1 es' in
      ((urls ++ urls')%list, st2)
  end.

(** A session: the component is set up and mounted, then events come. *)
Definition session (toLowerCase : string -> string) (net : Network)
    (mounted : option Element) (es : list Event) : list string * State :=
  let (urls, st) := run net 0 (onMounted (setup mounted)) in
  let (urls', st') := handle_all toLowerCase st es in
  ((urls ++ urls')%list, st').

(** [listed items sym]: [sym] is the symbol of a stock of [items]. *)
Definition listed (items : list Stock) (sym : string) : Prop :=
  exists s, In s items /\ symbol s = sym.

(** [kline_of items url]: [url] is the kline URL of a symbol of [items]. *)
Definition kline_of (items : list Stock) (url : string) : Prop :=
  exists sym, listed items sym /\ url = kline_url sym.

(** What holds of the state between the events of a session whose list
    request was answered with [items]. *)
Definition settled (items : list Stock) (st : State) : Prop :=
  stored st = Some items
  /\ loading st = false
  /\ (error st = None \/ error st = Some kline_error)
  /\ (currentSymbol st = "" \/ listed items (currentSymbol st)).

(** The colour callback of the MACD series: red exactly for the values
    above zero, green for the others, among which zero and [NaN]. *)
Definition macd_colours (opt : EChartsOption) : Prop :=
  exists color,
    option_map Series.itemStyle (find_series "MACD" opt) = Some (Series.ColorOf color)
    /\ forall p,
         (color p = Some red <-> js_gt (value p) 0%float = true)
         /\ (color p = Some green <-> js_gt (value p) 0%float = false)
         /\ (PrimFloat.eqb (value p) 0%float = true -> color p = Some green)
         /\ color (mkParams (dataIndex p) PrimFloat.nan) = Some green.

(** ** Concrete inputs *)

Definition stock_aapl : Stock := {| symbol := "AAPL"; name := "Apple Inc." |}.
Definition stock_bank : Stock := {| symbol := "000001"; name := "平安银行" |}.
Definition stock_unnamed : Stock := {| symbol := ""; name := "?" |}.

Definition row_up : Item.t :=
  Item.mk "2024-01-02" 10 11.5 9.5 12 1000 10.25 900 0.5 0.25 0.125 50 40 70.
Definition row_flat : Item.t :=
  Item.mk "2024-01-03" 11.5 11.5 11 12 800 10.5 950 (-0.5) 0.25 0.5 45 42 51.

(** A mounted component that holds [items], with a query typed and a symbol
    selected. *)
Definition component (items : list Stock) (query current : string) : State :=
  {| heap := [items]; stocks := 0; searchQuery := query; currentSymbol := current;
     chartInstance := None; chartRef := Some EchartsDom; loading := false;
     error := None; disposed := [] |}.

(** A network that fails every request, and one that answers every request
    with the same list and the same rows. *)
Definition net_down : Network := fun _ _ _ => Rejected.

(** A network that answers every kline request with a body [b]. *)
Definition net_body (items : list Stock) (b : KlineBody) : Network :=
  fun t _ _ =>
    match t return AxiosResult (body t) with
    | StockArray => Resolved items
    | KlineObject => Resolved b
    end.

Definition net_up (items : list Stock) (rows : list Item.t) : Network :=
  fun t _ _ =>
    match t return AxiosResult (body t) with
    | StockArray => Resolved items
    | KlineObject => Resolved (WithRows (mkKline rows))
    end.

(** * Properties *)

(** ** Substrings *)

Lemma prefix_iff (p s : string) :
  String.prefix p s = true <-> exists post, s = p ++ post.
Proof.
  revert s; induction p as [|c p IH]; intros s; simpl.
  - destruct s; simpl; split; eauto.
  - destruct s as [|b s]; simpl.
    + split; [discriminate | intros [post H]; discriminate].
    + destruct (ascii_dec c b) as [->|Hne].
      * rewrite IH; split; intros [post H]; exists post.
        -- now subst.
        -- now injection H.
      * split; [discriminate | intros [post H]; injection H; congruence].
Qed.

Lemma includes_unfold (s q : string) :
  JsString.includes s q =
  if String.prefix q s then true
  else match s with
       | EmptyString => false
       | String _ s' => JsString.includes s' q
       end.
Proof. destruct s; reflexivity. Qed.

Lemma includes_iff (s q : string) :
  JsString.includes s q = true <-> occurs_in q s.
Proof.
  unfold occurs_in; induction s as [|c s IH]; rewrite includes_unfold;
    destruct (String.prefix q _) eqn:E.
  - apply prefix_iff in E; destruct E as [post E].
    split; [intros _; exists "", post; exact E | reflexivity].
  - split; [discriminate|].
    intros (pre & post & H); destruct pre; simpl in H; [|discriminate].
    assert (String.prefix q "" = true) by (apply prefix_iff; eauto).
    congruence.
  - apply prefix_iff in E; destruct E as [post E].
    split; [intros _; exists "", post; exact E | reflexivity].
  - rewrite IH; split.
    + intros (pre & post & H); exists (String c pre), post; simpl; now rewrite H.
    + intros (pre & post & H); destruct pre as [|b pre]; simpl in H.
      * assert (String.prefix q (String c s) = true) by (apply prefix_iff; eauto).
        congruence.
      * injection H as _ H; eauto.
Qed.

(** ** The store *)

Lemma deref_alloc_new (h : Heap) (v : list Stock) :
  deref (fst (alloc h v)) (snd (alloc h v)) = Some v.
Proof.
  unfold deref, alloc; simpl.
  rewrite nth_error_app2 by lia.
  now rewrite Nat.sub_diag.
Qed.

Lemma deref_alloc_old (h : Heap) (v l : list Stock) (a : addr) :
  deref h a = Some l -> deref (fst (alloc h v)) a = Some l.
Proof.
  unfold deref, alloc; simpl; intros H.
  rewrite nth_error_app1; [exact H|].
  apply nth_error_Some; congruence.
Qed.

Lemma alloc_fresh (h : Heap) (v : list Stock) :
  ~ allocated h (snd (alloc h v)) /\ allocated (fst (alloc h v)) (snd (alloc h v)).
Proof.
  unfold allocated, alloc; simpl; rewrite length_app; simpl; lia.
Qed.

Lemma deref_allocated (h : Heap) (a : addr) (l : list Stock) :
  deref h a = Some l -> allocated h a.
Proof.
  unfold deref, allocated; intros H; apply nth_error_Some; congruence.
Qed.

(** ** Comparison of numbers *)

Lemma SFcompare_refl_not_Lt (f : spec_float) : SFcompare f f <> Some Lt.
Proof.
  destruct f as [s|s| |s m e]; simpl; try discriminate.
  - destruct s; discriminate.
  - destruct s; rewrite Z.compare_refl, Pos.compare_cont_refl; discriminate.
Qed.

Lemma js_gt_irrefl (x : float) : js_gt x x = false.
Proof.
  unfold js_gt; rewrite ltb_spec; unfold SFltb.
  destruct (SFcompare (Prim2SF x) (Prim2SF x)) as [[| |]|] eqn:E; try reflexivity.
  now apply SFcompare_refl_not_Lt in E.
Qed.

Lemma SFcompare_Eq_sym (f g : spec_float) :
  SFcompare f g = Some Eq -> SFcompare g f = Some Eq.
Proof.
  destruct f as [s|s| |s m e], g as [t|t| |t n e']; simpl;
    try discriminate; try reflexivity;
    try (destruct s; discriminate); try (destruct t; discriminate).
  - destruct s, t; try discriminate; reflexivity.
  - destruct s, t; try discriminate;
      (destruct (e ?= e')%Z eqn:Ez; try discriminate;
       apply Z.compare_eq_iff in Ez; subst e';
       change (Pos.compare_cont Eq m n) with (Pos.compare m n);
       destruct (Pos.compare m n) eqn:Em; try discriminate;
       apply Pos.compare_eq_iff in Em; subst n;
       rewrite Z.compare_refl, Pos.compare_cont_refl; reflexivity).
Qed.

(** Numbers that are [==] are not [>], in either order. *)
Lemma js_gt_of_eqb (x y : float) :
  PrimFloat.eqb x y = true -> js_gt x y = false /\ js_gt y x = false.
Proof.
  rewrite eqb_spec; unfold js_gt; rewrite !ltb_spec; unfold SFeqb, SFltb.
  destruct (SFcompare (Prim2SF x) (Prim2SF y)) as [[| |]|] eqn:E; try discriminate.
  intros _; rewrite (SFcompare_Eq_sym _ _ E); split; reflexivity.
Qed.

(** ** [filteredStocks] *)

Lemma isEmpty_iff (s : string) : JsString.isEmpty s = true <-> s = "".
Proof. destruct s; simpl; split; congruence. Qed.

Lemma filter_Sublist (A : Type) (f : A -> bool) (l : list A) :
  Sublist (filter f l) l.
Proof.
  induction l as [|x l IH]; simpl.
  - constructor.
  - destruct (f x); constructor; exact IH.
Qed.

Lemma Sublist_refl (A : Type) (l : list A) : Sublist l l.
Proof. induction l; constructor; assumption. Qed.

Section FilterFacts.

Variable toLowerCase : string -> string.

(** With an empty query the computed property is [stocks.value]. *)
Lemma filteredStocks_empty (st : State) :
  searchQuery st = "" -> filteredStocks toLowerCase st = (st, stocks st).
Proof.
  intros H; unfold filteredStocks; now rewrite H.
Qed.

(** With another query it is a new array, filled by [filter]. *)
Lemma filteredStocks_query (st : State) (items : list Stock) :
  searchQuery st <> "" -> stored st = Some items ->
  filteredStocks toLowerCase st =
  (set_heap (heap st ++ [filter (matches toLowerCase (toLowerCase (searchQuery st))) items])%list st,
   List.length (heap st)).
Proof.
  intros Hq Hs; unfold filteredStocks.
  destruct (JsString.isEmpty (searchQuery st)) eqn:E.
  - apply isEmpty_iff in E; contradiction.
  - rewrite Hs; reflexivity.
Qed.

Lemma filtered_empty (st : State) :
  searchQuery st = "" -> filtered toLowerCase st = stored st.
Proof.
  intros H; unfold filtered; now rewrite filteredStocks_empty.
Qed.

Lemma filtered_query (st : State) (items : list Stock) :
  searchQuery st <> "" -> stored st = Some items ->
  filtered toLowerCase st =
  Some (filter (matches toLowerCase (toLowerCase (searchQuery st))) items).
Proof.
  intros Hq Hs; unfold filtered; rewrite (filteredStocks_query _ Hq Hs).
  exact (deref_alloc_new (heap st) _).
Qed.

(** X1: what the code keeps: the stocks whose symbol, as it is, or whose name,
    in lower case, contains the query in lower case. *)
Lemma filtered_In (st : State) (items : list Stock) (s : Stock) :
  searchQuery st <> "" -> stored st = Some items ->
  exists l, filtered toLowerCase st = Some l /\
    (In s l <->
     In s items /\
     (occurs_in (toLowerCase (searchQuery st)) (symbol s) \/
      occurs_in (toLowerCase (searchQuery st)) (toLowerCase (name s)))).
Proof.
  intros Hq Hs; eexists; split; [exact (filtered_query _ Hq Hs)|].
  rewrite filter_In; unfold matches; rewrite orb_true_iff, !includes_iff.
  reflexivity.
Qed.

(** X2: on a list whose symbols hold no capital letter the code keeps what the
    specification's filter keeps. *)
Lemma filtered_lower_symbols (st : State) (items : list Stock) :
  searchQuery st <> "" -> stored st = Some items ->
  (forall s, In s items -> toLowerCase (symbol s) = symbol s) ->
  filtered toLowerCase st = Some (spec_filter toLowerCase (searchQuery st) items).
Proof.
  intros Hq Hs Hlow; rewrite (filtered_query _ Hq Hs); f_equal.
  unfold spec_filter; apply filter_ext_in; intros s Hin.
  unfold matches, spec_matches, contains_ignoring_case.
  now rewrite (Hlow s Hin).
Qed.

End FilterFacts.

(** C1, at the input where the code and the claim part: the list holds the
    one stock AAPL / Apple Inc. and the query typed is AAPL.  The query is
    put in lower case and looked for in the symbol as it is, so the code
    keeps nothing, while the symbol contains the query whatever the letter
    case, so the filter of the specification keeps the stock. *)
Lemma filteredStocks_symbol_case_sensitive :
  filtered JsString.toLowerCaseASCII (component [stock_aapl] "AAPL" "AAPL") = Some []
  /\ spec_filter JsString.toLowerCaseASCII "AAPL" [stock_aapl] = [stock_aapl]
  /\ filtered JsString.toLowerCaseASCII (component [stock_aapl] "aapl" "AAPL") = Some []
  /\ filtered JsString.toLowerCaseASCII (component [stock_aapl] "APPLE" "AAPL") = Some [stock_aapl].
Proof. repeat split; vm_compute; reflexivity. Qed.

(** C9: the filtered list is the stored list with some stocks left out and
    the others in their order, and with the empty query it is the stored
    list. *)
Theorem filtered_sublist (toLowerCase : string -> string) (st : State)
    (items : list Stock) :
  stored st = Some items ->
  (exists l, filtered toLowerCase st = Some l /\ Sublist l items)
  /\ (searchQuery st = "" -> filtered toLowerCase st = Some items).
Proof.
  intros Hs; split.
  - destruct (string_dec (searchQuery st) "") as [Hq|Hq].
    + exists items; rewrite (filtered_empty _ _ Hq); auto using Sublist_refl.
    + eexists; split; [exact (filtered_query toLowerCase _ Hq Hs)|].
      apply filter_Sublist.
  - intros Hq; rewrite (filtered_empty _ _ Hq); exact Hs.
Qed.

Lemma filtered_sublist_witness :
  (exists l, filtered JsString.toLowerCaseASCII
               (component [stock_aapl; stock_bank; stock_unnamed] "0" "") = Some l
     /\ Sublist l [stock_aapl; stock_bank; stock_unnamed])
  /\ filtered JsString.toLowerCaseASCII
       (component [stock_aapl; stock_bank; stock_unnamed] "" "")
     = Some [stock_aapl; stock_bank; stock_unnamed].
Proof.
  split.
  - apply (proj1 (@filtered_sublist JsString.toLowerCaseASCII
                    (component [stock_aapl; stock_bank; stock_unnamed] "0" "")
                    [stock_aapl; stock_bank; stock_unnamed] eq_refl)).
  - apply (proj2 (@filtered_sublist JsString.toLowerCaseASCII
                    (component [stock_aapl; stock_bank; stock_unnamed] "" "")
                    [stock_aapl; stock_bank; stock_unnamed] eq_refl)).
    reflexivity.
Defined.

(** The filter at work on three stocks. *)
Example filtered_three :
  filtered JsString.toLowerCaseASCII
    (component [stock_aapl; stock_bank; stock_unnamed] "0" "") = Some [stock_bank]
  /\ filtered JsString.toLowerCaseASCII
       (component [stock_aapl; stock_bank; stock_unnamed] "INC" "") = Some [stock_aapl]
  /\ filtered JsString.toLowerCaseASCII
       (component [stock_aapl; stock_bank; stock_unnamed] "银行" "") = Some [stock_bank].
Proof. repeat split; vm_compute; reflexivity. Qed.

(** ** [renderChart] *)

(** On a mounted component [renderChart] hands the option of the rows to a
    new chart instance. *)
Lemma renderChart_mounted (symbol : string) (data : list Item.t) (st : State)
    (el : Element) :
  chartRef st = Some el ->
  handed (renderChart symbol data st) = Some (renderChart_option symbol data).
Proof.
  intros H; unfold renderChart; rewrite H; reflexivity.
Qed.

(** Without a mounted node it does nothing. *)
Lemma renderChart_unmounted (symbol : string) (data : list Item.t) (st : State) :
  chartRef st = None -> renderChart symbol data st = st.
Proof.
  intros H; unfold renderChart; now rewrite H.
Qed.

Lemma nth_error_map_some (A B : Type) (f : A -> B) (l : list A) (i : nat) (x : A) :
  nth_error l i = Some x -> nth_error (map f l) i = Some (f x).
Proof.
  intros H; rewrite nth_error_map, H; reflexivity.
Qed.

Lemma option_parallel_columns (symbol : string) (data : list Item.t) :
  parallel_columns data (renderChart_option symbol data).
Proof.
  unfold parallel_columns; split; [reflexivity|].
  split; [simpl; repeat constructor|].
  split; [|split; [|split; [reflexivity|]]].
  - simpl; repeat constructor; simpl; apply length_map.
  - simpl; repeat constructor; simpl; apply length_map.
  - do 2 eexists; split; [reflexivity|split; [reflexivity|]].
    intros i row H; split; [|split].
    + simpl; repeat constructor; simpl; exact (nth_error_map_some _ _ _ H).
    + exact (nth_error_map_some _ _ _ H).
    + exact (nth_error_map_some _ _ _ H).
Qed.

Lemma option_indicator_columns (symbol : string) (data : list Item.t) :
  indicator_columns data (renderChart_option symbol data).
Proof.
  intros nm field Hin; exists (map field data).
  split; [|split; [apply length_map | intros i row H; exact (nth_error_map_some _ _ _ H)]].
  simpl in Hin.
  repeat (destruct Hin as [Hin|Hin];
          [injection Hin as <- <-; reflexivity|]).
  contradiction.
Qed.

Lemma option_volume_colours (symbol : string) (data : list Item.t) :
  volume_colours data (renderChart_option symbol data).
Proof.
  eexists; split; [reflexivity|].
  intros i row v H; simpl.
  rewrite (nth_error_map_some _ _ _ H).
  assert (Hrg : red <> green) by discriminate.
  split; [|split; [|split]].
  - destruct (js_gt _ _); split; try reflexivity; try discriminate;
      intros E; injection E; congruence.
  - destruct (js_gt _ _); split; try reflexivity; try discriminate;
      intros E; injection E; congruence.
  - intros E; apply js_gt_of_eqb in E; destruct E as [E _]; now rewrite E.
  - intros E; rewrite E, js_gt_irrefl; reflexivity.
Qed.

(** C3: the option handed to the chart holds parallel columns, one entry
    per row of the series: the dates, the candlestick tuples
    [[open, close, low, high]], the volumes and every indicator. *)
Theorem renderChart_columns (symbol : string) (data : list Item.t) (st : State)
    (el : Element) :
  chartRef st = Some el ->
  exists opt, handed (renderChart symbol data st) = Some opt
    /\ parallel_columns data opt.
Proof.
  intros H; exists (renderChart_option symbol data); split.
  - exact (renderChart_mounted symbol data st H).
  - apply option_parallel_columns.
Qed.

Lemma renderChart_columns_witness :
  exists opt,
    handed (renderChart "AAPL" [row_up; row_flat] (component [stock_aapl] "" "AAPL")) = Some opt
    /\ parallel_columns [row_up; row_flat] opt.
Proof.
  apply (@renderChart_columns "AAPL" [row_up; row_flat]
           (component [stock_aapl] "" "AAPL") EchartsDom).
  reflexivity.
Defined.

(** C4: every indicator series handed to the chart (MA20, VOL_MA5, MACD,
    DIFF, DEA, K, D, J) holds at index [i] the field of row [i] as it came:
    nothing is computed from it. *)
Theorem renderChart_indicators (symbol : string) (data : list Item.t) (st : State)
    (el : Element) :
  chartRef st = Some el ->
  exists opt, handed (renderChart symbol data st) = Some opt
    /\ indicator_columns data opt.
Proof.
  intros H; exists (renderChart_option symbol data); split.
  - exact (renderChart_mounted symbol data st H).
  - apply option_indicator_columns.
Qed.

Lemma renderChart_indicators_witness :
  exists opt,
    handed (renderChart "AAPL" [row_up; row_flat] (component [stock_aapl] "" "AAPL")) = Some opt
    /\ indicator_columns [row_up; row_flat] opt.
Proof.
  apply (@renderChart_indicators "AAPL" [row_up; row_flat]
           (component [stock_aapl] "" "AAPL") EchartsDom).
  reflexivity.
Defined.

(** C10: the volume bar of row [i] is red ([#ef232a]) exactly when the close
    of the row is strictly above its open, and green ([#14b143]) otherwise;
    a row whose close equals its open is green. *)
Theorem renderChart_volume_colours (symbol : string) (data : list Item.t)
    (st : State) (el : Element) :
  chartRef st = Some el ->
  exists opt, handed (renderChart symbol data st) = Some opt
    /\ volume_colours data opt.
Proof.
  intros H; exists (renderChart_option symbol data); split.
  - exact (renderChart_mounted symbol data st H).
  - apply option_volume_colours.
Qed.

Lemma renderChart_volume_colours_witness :
  exists opt,
    handed (renderChart "AAPL" [row_up; row_flat] (component [stock_aapl] "" "AAPL")) = Some opt
    /\ volume_colours [row_up; row_flat] opt.
Proof.
  apply (@renderChart_volume_colours "AAPL" [row_up; row_flat]
           (component [stock_aapl] "" "AAPL") EchartsDom).
  reflexivity.
Defined.

(** ** The requests *)

(** [renderChart] touches the chart instance only. *)
Lemma renderChart_frame (symbol : string) (data : list Item.t) (st : State) :
  heap (renderChart symbol data st) = heap st
  /\ stocks (renderChart symbol data st) = stocks st
  /\ searchQuery (renderChart symbol data st) = searchQuery st
  /\ currentSymbol (renderChart symbol data st) = currentSymbol st
  /\ loading (renderChart symbol data st) = loading st
  /\ error (renderChart symbol data st) = error st.
Proof.
  unfold renderChart, dispose.
  destruct (chartRef st); destruct (chartInstance st); simpl; auto 10.
Qed.

(** [loadChartData] makes one request and returns, whatever the answer. *)
Lemma run_loadChartData (net : Network) (n : nat) (symbol : string) (st : State) :
  run net n (loadChartData symbol st) =
  ([kline_url symbol],
   set_loading false
     match loadChartData_try symbol (net KlineObject n (kline_url symbol))
             (set_error None (set_loading true st)) with
     | Normal st' => st'
     | Throw st' => set_error (Some kline_error) st'
     end).
Proof. reflexivity. Qed.

(** The [try] block touches the chart instance only. *)
Lemma loadChartData_try_frame (symbol : string) (res : AxiosResult KlineBody)
    (st : State) :
  heap (state_of (loadChartData_try symbol res st)) = heap st
  /\ stocks (state_of (loadChartData_try symbol res st)) = stocks st
  /\ searchQuery (state_of (loadChartData_try symbol res st)) = searchQuery st
  /\ currentSymbol (state_of (loadChartData_try symbol res st)) = currentSymbol st
  /\ loading (state_of (loadChartData_try symbol res st)) = loading st
  /\ error (state_of (loadChartData_try symbol res st)) = error st.
Proof.
  destruct res as [[r| |]|]; cbn [loadChartData_try state_of]; auto 10.
  - apply renderChart_frame.
  - unfold renderChart_not_array, dispose.
    destruct (chartRef st); destruct (chartInstance st); simpl; auto 10.
Qed.

Lemma run_selectStock_same (net : Network) (n : nat) (stock : Stock) (st : State) :
  currentSymbol st = symbol stock ->
  run net n (selectStock stock st) = ([], st).
Proof.
  intros H; unfold selectStock; rewrite H, String.eqb_refl; reflexivity.
Qed.

Lemma run_selectStock_other (net : Network) (n : nat) (stock : Stock) (st : State) :
  currentSymbol st <> symbol stock ->
  run net n (selectStock stock st) =
  run net n (loadChartData (symbol stock) (set_currentSymbol (symbol stock) st)).
Proof.
  intros H; unfold selectStock.
  apply String.eqb_neq in H; rewrite H; reflexivity.
Qed.

Lemma loadChartData_frame (net : Network) (n : nat) (symbol : string) (st : State) :
  heap (snd (run net n (loadChartData symbol st))) = heap st
  /\ stocks (snd (run net n (loadChartData symbol st))) = stocks st
  /\ searchQuery (snd (run net n (loadChartData symbol st))) = searchQuery st
  /\ currentSymbol (snd (run net n (loadChartData symbol st))) = currentSymbol st.
Proof.
  rewrite run_loadChartData; cbn [snd].
  destruct (loadChartData_try_frame symbol (net KlineObject n (kline_url symbol))
              (set_error None (set_loading true st))) as (H1 & H2 & H3 & H4 & _).
  destruct (loadChartData_try _ _ _); cbn [state_of] in *; simpl; auto.
Qed.

Lemma selectStock_frame (net : Network) (n : nat) (stock : Stock) (st : State) :
  heap (snd (run net n (selectStock stock st))) = heap st
  /\ stocks (snd (run net n (selectStock stock st))) = stocks st
  /\ searchQuery (snd (run net n (selectStock stock st))) = searchQuery st
  /\ currentSymbol (snd (run net n (selectStock stock st))) = symbol stock.
Proof.
  destruct (string_dec (currentSymbol st) (symbol stock)) as [E|E].
  - rewrite (run_selectStock_same net n _ _ E); simpl; auto.
  - rewrite (run_selectStock_other net n _ _ E).
    destruct (loadChartData_frame net n (symbol stock)
                (set_currentSymbol (symbol stock) st)) as (H1 & H2 & H3 & H4).
    auto.
Qed.

(** The run of [fetchStocks] on an answered list. *)
Lemma run_fetchStocks_resolved (net : Network) (n : nat) (st : State)
    (l : list Stock) :
  net StockArray n list_url = Resolved l ->
  run net n (fetchStocks st) =
  let st' := set_heap_stocks (heap st ++ [l])%list (List.length (heap st)) st in
  match l with
  | stock0 :: _ =>
      (list_url :: fst (run net (S n) (selectStock stock0 st')),
       snd (run net (S n) (selectStock stock0 st')))
  | [] => ([list_url], st')
  end.
Proof.
  intros H; unfold fetchStocks; cbn [run].
  change (API_BASE ++ "/stocks/list") with list_url; rewrite H.
  unfold alloc; destruct l as [|stock0 rest]; [reflexivity|].
  cbv zeta; destruct (run net (S n) (selectStock stock0 _)); reflexivity.
Qed.

Lemma run_fetchStocks_rejected (net : Network) (n : nat) (st : State) :
  net StockArray n list_url = Rejected ->
  run net n (fetchStocks st) = ([list_url], set_error (Some "无法加载股票列表") st).
Proof.
  intros H; unfold fetchStocks; cbn [run].
  change (API_BASE ++ "/stocks/list") with list_url; rewrite H; reflexivity.
Qed.

(** C2 as stated fails: AAPL is the current symbol and the user clicks on
    AAPL; [selectStock] returns at its first line and asks the kline
    endpoint nothing. *)
Lemma selectStock_same_symbol_no_fetch :
  currentSymbol (component [stock_aapl] "" "AAPL") = symbol stock_aapl
  /\ ~ In (kline_url (symbol stock_aapl))
          (requests (net_up [stock_aapl] [row_up])
             (selectStock stock_aapl (component [stock_aapl] "" "AAPL"))).
Proof.
  split; [reflexivity|].
  vm_compute; intros H; exact H.
Qed.

(** C2, amended: a click on a stock whose symbol is not the current one
    makes that symbol current and fetches its series from the kline
    endpoint, once; a click on the stock whose symbol is the current one
    fetches nothing and changes nothing. *)
Theorem selectStock_refetch (net : Network) (n : nat) (stock : Stock) (st : State) :
  (currentSymbol st <> symbol stock ->
     fst (run net n (selectStock stock st)) = [kline_url (symbol stock)]
     /\ currentSymbol (snd (run net n (selectStock stock st))) = symbol stock)
  /\ (currentSymbol st = symbol stock ->
     run net n (selectStock stock st) = ([], st)).
Proof.
  split; intros H.
  - split; [|apply selectStock_frame].
    rewrite (run_selectStock_other net n _ _ H), run_loadChartData; reflexivity.
  - exact (run_selectStock_same net n _ _ H).
Qed.

Lemma selectStock_refetch_witness :
  (fst (run (net_up [stock_aapl; stock_bank] [row_up]) 0
          (selectStock stock_bank (component [stock_aapl; stock_bank] "" "AAPL")))
   = [kline_url (symbol stock_bank)]
   /\ currentSymbol
        (snd (run (net_up [stock_aapl; stock_bank] [row_up]) 0
                (selectStock stock_bank (component [stock_aapl; stock_bank] "" "AAPL"))))
      = symbol stock_bank)
  /\ run (net_up [stock_aapl; stock_bank] [row_up]) 0
       (selectStock stock_aapl (component [stock_aapl; stock_bank] "" "AAPL"))
     = ([], component [stock_aapl; stock_bank] "" "AAPL").
Proof.
  split.
  - apply (proj1 (selectStock_refetch (net_up [stock_aapl; stock_bank] [row_up]) 0
                    stock_bank (component [stock_aapl; stock_bank] "" "AAPL"))).
    vm_compute; discriminate.
  - apply (proj2 (selectStock_refetch (net_up [stock_aapl; stock_bank] [row_up]) 0
                    stock_aapl (component [stock_aapl; stock_bank] "" "AAPL"))).
    reflexivity.
Defined.




(** C6: the list fetch asks [GET {API_BASE}/stocks/list] first and stores
    the body of the response, as it is, as the array of stocks; the series
    fetch asks [GET {API_BASE}/stocks/{symbol}/kline] and gives the [data]
    field of the body of the response, as it is, to [renderChart]. *)
Theorem endpoints (net : Network) (n : nat) (st : State) :
  (exists urls,
     fst (run net n (fetchStocks st)) = (API_BASE ++ "/stocks/list") :: urls)
  /\ (forall res_data,
        net StockArray n (API_BASE ++ "/stocks/list") = Resolved res_data ->
        stored (snd (run net n (fetchStocks st))) = Some res_data)
  /\ (forall symbol,
        fst (run net n (loadChartData symbol st))
        = [API_BASE ++ "/stocks/" ++ symbol ++ "/kline"]
        /\ forall res_data,
             net KlineObject n (API_BASE ++ "/stocks/" ++ symbol ++ "/kline")
             = Resolved (WithRows res_data) ->
             snd (run net n (loadChartData symbol st))
             = set_loading false
                 (renderChart symbol (data res_data)
                    (set_error None (set_loading true st)))).
Proof.
  split; [|split].
  - destruct (net StockArray n list_url) as [l|] eqn:E.
    + rewrite (run_fetchStocks_resolved _ _ st E).
      destruct l; cbn [fst]; eexists; reflexivity.
    + rewrite (run_fetchStocks_rejected _ _ st E); eexists; reflexivity.
  - intros l E; change (API_BASE ++ "/stocks/list") with list_url in E.
    rewrite (run_fetchStocks_resolved _ _ st E).
    assert (Hnew : deref (heap st ++ [l])%list (List.length (heap st)) = Some l)
      by exact (deref_alloc_new (heap st) l).
    destruct l as [|stock0 rest]; cbn [snd]; [exact Hnew|].
    unfold stored.
    destruct (selectStock_frame net (S n) stock0
                (set_heap_stocks (heap st ++ [stock0 :: rest])%list
                   (List.length (heap st)) st)) as (Hh & Hs & _).
    rewrite Hh, Hs; exact Hnew.
  - intros symbol; rewrite run_loadChartData; split; [reflexivity|].
    intros b E; change (API_BASE ++ "/stocks/" ++ symbol ++ "/kline")
                  with (kline_url symbol) in E.
    cbn [snd]; rewrite E; reflexivity.
Qed.

Lemma endpoints_witness :
  stored (snd (run (net_up [stock_aapl; stock_bank] [row_up; row_flat]) 0
                 (fetchStocks (setup (Some EchartsDom)))))
  = Some [stock_aapl; stock_bank]
  /\ snd (run (net_up [stock_aapl; stock_bank] [row_up; row_flat]) 0
            (loadChartData "000001" (setup (Some EchartsDom))))
     = set_loading false
         (renderChart "000001" [row_up; row_flat]
            (set_error None (set_loading true (setup (Some EchartsDom))))).
Proof.
  split.
  - apply (proj1 (proj2 (endpoints (net_up [stock_aapl; stock_bank] [row_up; row_flat])
                           0 (setup (Some EchartsDom))))).
    reflexivity.
  - apply (proj2 (proj2 (proj2 (endpoints (net_up [stock_aapl; stock_bank] [row_up; row_flat])
                                  0 (setup (Some EchartsDom)))) "000001")
             (mkKline [row_up; row_flat])).
    reflexivity.
Defined.

(** C8 as stated fails: on a component that was just mounted the current
    symbol is the empty string; when the first stock of the fetched list
    has the empty string for symbol, [selectStock] returns at its first
    line, and the list is not empty and yet no kline request is made. *)
Lemma fetchStocks_first_not_fetched :
  net_up [stock_unnamed; stock_aapl] [row_up] StockArray 0 list_url
  = Resolved [stock_unnamed; stock_aapl]
  /\ requests (net_up [stock_unnamed; stock_aapl] [row_up])
       (onMounted (setup (Some EchartsDom))) = [list_url]
  /\ ~ In (kline_url (symbol stock_unnamed))
          (requests (net_up [stock_unnamed; stock_aapl] [row_up])
             (onMounted (setup (Some EchartsDom)))).
Proof.
  split; [reflexivity|split; [reflexivity|]].
  vm_compute; intros [H|H]; [discriminate H | exact H].
Qed.

(** C8, amended: after a successful list fetch, if the list is not empty
    and the symbol of its first stock is not the current symbol, that
    symbol becomes the current one and its kline series is fetched; if the
    symbol of the first stock is the current symbol already, or if the list
    is empty, the current symbol stays and no kline request is made. *)
Theorem fetchStocks_selects_first (net : Network) (n : nat) (st : State)
    (res_data : list Stock) :
  net StockArray n list_url = Resolved res_data ->
  (forall stock0 rest, res_data = stock0 :: rest ->
     (currentSymbol st <> symbol stock0 ->
        fst (run net n (fetchStocks st)) = [list_url; kline_url (symbol stock0)]
        /\ currentSymbol (snd (run net n (fetchStocks st))) = symbol stock0)
     /\ (currentSymbol st = symbol stock0 ->
        fst (run net n (fetchStocks st)) = [list_url]
        /\ currentSymbol (snd (run net n (fetchStocks st))) = currentSymbol st))
  /\ (res_data = [] ->
      fst (run net n (fetchStocks st)) = [list_url]
      /\ currentSymbol (snd (run net n (fetchStocks st))) = currentSymbol st).
Proof.
  intros E; rewrite (run_fetchStocks_resolved _ _ st E); split.
  - intros stock0 rest ->; cbv zeta; cbn [fst snd].
    set (st' := set_heap_stocks _ _ st).
    split; intros H.
    + split; [|apply selectStock_frame].
      rewrite (run_selectStock_other net (S n) stock0 st' H), run_loadChartData.
      reflexivity.
    + rewrite (run_selectStock_same net (S n) stock0 st' H); split; reflexivity.
  - intros ->; auto.
Qed.

Lemma fetchStocks_selects_first_witness :
  (fst (run (net_up [stock_aapl; stock_bank] [row_up]) 0
          (fetchStocks (setup (Some EchartsDom))))
   = [list_url; kline_url (symbol stock_aapl)]
   /\ currentSymbol (snd (run (net_up [stock_aapl; stock_bank] [row_up]) 0
                            (fetchStocks (setup (Some EchartsDom)))))
      = symbol stock_aapl)
  /\ (fst (run (net_up [stock_unnamed] [row_up]) 0 (fetchStocks (setup (Some EchartsDom))))
      = [list_url]
      /\ currentSymbol (snd (run (net_up [stock_unnamed] [row_up]) 0
                               (fetchStocks (setup (Some EchartsDom)))))
         = currentSymbol (setup (Some EchartsDom)))
  /\ (fst (run (net_up [] [row_up]) 0 (fetchStocks (setup (Some EchartsDom))))
      = [list_url]
      /\ currentSymbol (snd (run (net_up [] [row_up]) 0
                               (fetchStocks (setup (Some EchartsDom)))))
         = currentSymbol (setup (Some EchartsDom))).
Proof.
  split; [|split].
  - apply (proj1 (proj1 (@fetchStocks_selects_first
                           (net_up [stock_aapl; stock_bank] [row_up]) 0
                           (setup (Some EchartsDom)) [stock_aapl; stock_bank] eq_refl)
                    stock_aapl [stock_bank] eq_refl)).
    vm_compute; discriminate.
  - apply (proj2 (proj1 (@fetchStocks_selects_first
                           (net_up [stock_unnamed] [row_up]) 0
                           (setup (Some EchartsDom)) [stock_unnamed] eq_refl)
                    stock_unnamed [] eq_refl)).
    reflexivity.
  - apply (proj2 (@fetchStocks_selects_first (net_up [] [row_up]) 0
                    (setup (Some EchartsDom)) [] eq_refl)).
    reflexivity.
Defined.

(** ** The stored list is not modified *)

Lemma filteredStocks_frame (toLowerCase : string -> string) (st : State) :
  stocks (fst (filteredStocks toLowerCase st)) = stocks st
  /\ forall b l, deref (heap st) b = Some l ->
       deref (heap (fst (filteredStocks toLowerCase st))) b = Some l.
Proof.
  unfold filteredStocks.
  destruct (JsString.isEmpty (searchQuery st)); [simpl; auto|].
  destruct (stored st) as [items|]; [|simpl; auto].
  unfold alloc; cbn [fst stocks heap set_heap set_heap_stocks]; split; [reflexivity|].
  intros b l H; exact (deref_alloc_old (heap st) _ b H).
Qed.

Lemma perform_stored (toLowerCase : string -> string) (st : State) (a : Action)
    (items : list Stock) :
  stored st = Some items -> stored (perform toLowerCase st a) = Some items.
Proof.
  unfold stored; intros H; destruct a as [q| |net stock|net symbol|symbol rows];
    cbn [perform].
  - exact H.
  - destruct (filteredStocks_frame toLowerCase st) as [Hs Hh].
    rewrite Hs; exact (Hh _ _ H).
  - unfold result.
    destruct (selectStock_frame net 0 stock st) as (Hh & Hs & _).
    now rewrite Hh, Hs.
  - unfold result.
    destruct (loadChartData_frame net 0 symbol st) as (Hh & Hs & _).
    now rewrite Hh, Hs.
  - destruct (renderChart_frame symbol rows st) as (Hh & Hs & _).
    now rewrite Hh, Hs.
Qed.

(** C7 as stated fails in one point: with the empty query the computed
    property returns [stocks.value], the stored array, and not a new
    array. *)
Lemma filteredStocks_returns_stored_array :
  snd (filteredStocks JsString.toLowerCaseASCII (component [stock_aapl; stock_bank] "" "AAPL"))
  = stocks (component [stock_aapl; stock_bank] "" "AAPL")
  /\ allocated (heap (component [stock_aapl; stock_bank] "" "AAPL"))
       (snd (filteredStocks JsString.toLowerCaseASCII
               (component [stock_aapl; stock_bank] "" "AAPL"))).
Proof.
  split; [reflexivity | unfold allocated; simpl; lia].
Qed.

(** C7, amended: once fetched, the stored list of stocks, with the symbol
    and the name of each of its stocks, stays as it is through every
    sequence of typing, filtering, selections, loads and renderings;
    filtering leaves every array of the store as it is; with a query that
    is not empty it returns a new array, with the empty query it returns
    the stored array. *)
Theorem stocks_never_modified (toLowerCase : string -> string) (st : State)
    (items : list Stock) :
  stored st = Some items ->
  (forall actions, stored (fold_left (perform toLowerCase) actions st) = Some items)
  /\ (forall b l, deref (heap st) b = Some l ->
        deref (heap (fst (filteredStocks toLowerCase st))) b = Some l)
  /\ (searchQuery st <> "" ->
        ~ allocated (heap st) (snd (filteredStocks toLowerCase st))
        /\ allocated (heap (fst (filteredStocks toLowerCase st)))
             (snd (filteredStocks toLowerCase st))
        /\ snd (filteredStocks toLowerCase st) <> stocks st)
  /\ (searchQuery st = "" -> filteredStocks toLowerCase st = (st, stocks st)).
Proof.
  intros Hs; split; [|split; [|split]].
  - intros actions; revert st Hs.
    induction actions as [|a actions IH]; intros st Hs; [exact Hs|].
    cbn [fold_left]; apply IH, perform_stored, Hs.
  - apply filteredStocks_frame.
  - intros Hq; rewrite (filteredStocks_query toLowerCase _ Hq Hs); cbn [fst snd].
    apply deref_allocated in Hs; unfold allocated in *.
    cbn [heap set_heap set_heap_stocks]; rewrite length_app; simpl; lia.
  - apply filteredStocks_empty.
Qed.

Lemma stocks_never_modified_witness :
  stored (fold_left (perform JsString.toLowerCaseASCII)
            [Typing "ap"; Filtering;
             Selection (net_up [stock_bank] [row_up; row_flat]) stock_bank;
             Rendering "AAPL" [row_flat]; Typing ""; Filtering]
            (component [stock_aapl; stock_bank] "" "AAPL"))
  = Some [stock_aapl; stock_bank]
  /\ (~ allocated (heap (component [stock_aapl; stock_bank] "ap" "AAPL"))
         (snd (filteredStocks JsString.toLowerCaseASCII
                 (component [stock_aapl; stock_bank] "ap" "AAPL")))
      /\ allocated
           (heap (fst (filteredStocks JsString.toLowerCaseASCII
                         (component [stock_aapl; stock_bank] "ap" "AAPL"))))
           (snd (filteredStocks JsString.toLowerCaseASCII
                   (component [stock_aapl; stock_bank] "ap" "AAPL")))
      /\ snd (filteredStocks JsString.toLowerCaseASCII
                (component [stock_aapl; stock_bank] "ap" "AAPL"))
         <> stocks (component [stock_aapl; stock_bank] "ap" "AAPL"))
  /\ filteredStocks JsString.toLowerCaseASCII (component [stock_aapl; stock_bank] "" "AAPL")
     = (component [stock_aapl; stock_bank] "" "AAPL",
        stocks (component [stock_aapl; stock_bank] "" "AAPL")).
Proof.
  split; [|split].
  - apply (proj1 (@stocks_never_modified JsString.toLowerCaseASCII
                    (component [stock_aapl; stock_bank] "" "AAPL")
                    [stock_aapl; stock_bank] eq_refl)).
  - apply (proj1 (proj2 (proj2 (@stocks_never_modified JsString.toLowerCaseASCII
                                  (component [stock_aapl; stock_bank] "ap" "AAPL")
                                  [stock_aapl; stock_bank] eq_refl)))).
    simpl; discriminate.
  - apply (proj2 (proj2 (proj2 (@stocks_never_modified JsString.toLowerCaseASCII
                                  (component [stock_aapl; stock_bank] "" "AAPL")
                                  [stock_aapl; stock_bank] eq_refl)))).
    reflexivity.
Defined.

(** ** The store stays well formed *)

Lemma wf_setup (mounted : option Element) : wf (setup mounted).
Proof. unfold wf, allocated; simpl; lia. Qed.

Lemma wf_perform (toLowerCase : string -> string) (st : State) (a : Action) :
  wf st -> wf (perform toLowerCase st a).
Proof.
  unfold wf, allocated; intros H.
  destruct (nth_error (heap st) (stocks st)) as [items|] eqn:E;
    [|apply nth_error_None in E; lia].
  apply (@deref_allocated _ _ items).
  exact (perform_stored toLowerCase st a E).
Qed.

Lemma wf_fetchStocks (net : Network) (n : nat) (st : State) :
  wf st -> wf (snd (run net n (fetchStocks st))).
Proof.
  intros H; destruct (net StockArray n list_url) as [l|] eqn:E.
  - rewrite (run_fetchStocks_resolved _ _ st E).
    assert (Hnew : deref (heap st ++ [l])%list (List.length (heap st)) = Some l)
      by exact (deref_alloc_new (heap st) l).
    apply deref_allocated in Hnew.
    destruct l as [|stock0 rest]; cbn [snd]; [exact Hnew|].
    unfold wf.
    destruct (selectStock_frame net (S n) stock0
                (set_heap_stocks (heap st ++ [stock0 :: rest])%list
                   (List.length (heap st)) st)) as (Hh & Hs & _).
    rewrite Hh, Hs; exact Hnew.
  - rewrite (run_fetchStocks_rejected _ _ st E); exact H.
Qed.

(** ** A session *)

(** Mounting the component against a network that answers: the list is
    asked, then the series of its first stock; the chart shows the option
    of that series. *)
Example session_mount :
  run (net_up [stock_aapl; stock_bank] [row_up; row_flat]) 0
      (onMounted (setup (Some EchartsDom)))
  = ([list_url; kline_url "AAPL"],
     {| heap := [[]; [stock_aapl; stock_bank]]; stocks := 1;
        searchQuery := ""; currentSymbol := "AAPL";
        chartInstance :=
          Some (mkInstance EchartsDom
                  (Some (renderChart_option "AAPL" [row_up; row_flat])));
        chartRef := Some EchartsDom; loading := false; error := None;
        disposed := [] |}).
Proof. reflexivity. Qed.

(** The same against a network that fails: one request, the error of the
    list fetch, nothing selected. *)
Example session_mount_down :
  run net_down 0 (onMounted (setup (Some EchartsDom)))
  = ([list_url], set_error (Some "无法加载股票列表") (setup (Some EchartsDom))).
Proof. reflexivity. Qed.

(** The colours of the volume bars of a rising row and of a flat row; there
    is no colour past the last row. *)
Example volume_colours_rows :
  match option_map Series.itemStyle
          (find_series "Volume" (renderChart_option "AAPL" [row_up; row_flat])) with
  | Some (Series.ColorOf color) => map (fun i => color (mkParams i 0%float)) [0; 1; 2]
  | _ => []
  end = [Some red; Some green; None].
Proof. vm_compute; reflexivity. Qed.

(** * Further properties *)

(** ** The filter *)

Lemma append_assoc (a b c : string) : (a ++ b) ++ c = a ++ b ++ c.
Proof. induction a as [|x a IH]; simpl; [reflexivity | now rewrite IH]. Qed.

Lemma occurs_in_trans (a b c : string) :
  occurs_in a b -> occurs_in b c -> occurs_in a c.
Proof.
  intros (p & q & ->) (p' & q' & ->).
  exists (p' ++ p), (q ++ q'); now rewrite !append_assoc.
Qed.

Lemma filter_Sublist_impl (A : Type) (f g : A -> bool) (l : list A) :
  (forall x, In x l -> f x = true -> g x = true) ->
  Sublist (filter f l) (filter g l).
Proof.
  induction l as [|x l IH]; intros H; simpl; [constructor|].
  assert (IH' : Sublist (filter f l) (filter g l))
    by (apply IH; intros y Hy; apply H; now right).
  destruct (f x) eqn:Ef.
  - rewrite (H x (or_introl eq_refl) Ef); now constructor.
  - destruct (g x); [now constructor | exact IH'].
Qed.

Lemma Sublist_In (A : Type) (l m : list A) (x : A) :
  Sublist l m -> In x l -> In x m.
Proof.
  induction 1 as [|y l m _ IH|y l m _ IH]; simpl; intuition.
Qed.

(** The filtered list is a function of the query and of the stored list. *)
Lemma filtered_eq (toLowerCase : string -> string) (st : State) :
  filtered toLowerCase st =
  if JsString.isEmpty (searchQuery st) then stored st
  else option_map (filter (matches toLowerCase (toLowerCase (searchQuery st))))
         (stored st).
Proof.
  destruct (JsString.isEmpty (searchQuery st)) eqn:E.
  - apply filtered_empty, isEmpty_iff, E.
  - assert (Hq : searchQuery st <> "")
      by (intros H; apply isEmpty_iff in H; congruence).
    destruct (stored st) as [items|] eqn:Hs.
    + exact (filtered_query toLowerCase _ Hq Hs).
    + unfold filtered, filteredStocks; rewrite E, Hs; exact Hs.
Qed.

Lemma filtered_In_witness :
  exists l,
    filtered JsString.toLowerCaseASCII (component [stock_aapl; stock_bank] "Ap" "") = Some l
    /\ (In stock_aapl l <->
        In stock_aapl [stock_aapl; stock_bank]
        /\ (occurs_in (JsString.toLowerCaseASCII "Ap") (symbol stock_aapl)
            \/ occurs_in (JsString.toLowerCaseASCII "Ap")
                 (JsString.toLowerCaseASCII (name stock_aapl)))).
Proof.
  apply (@filtered_In JsString.toLowerCaseASCII
           (component [stock_aapl; stock_bank] "Ap" "") [stock_aapl; stock_bank]
           stock_aapl).
  - simpl; discriminate.
  - reflexivity.
Defined.

Lemma filtered_lower_symbols_witness :
  filtered JsString.toLowerCaseASCII (component [stock_bank; stock_unnamed] "00" "")
  = Some (spec_filter JsString.toLowerCaseASCII "00" [stock_bank; stock_unnamed]).
Proof.
  apply (@filtered_lower_symbols JsString.toLowerCaseASCII
           (component [stock_bank; stock_unnamed] "00" "") [stock_bank; stock_unnamed]).
  - simpl; discriminate.
  - reflexivity.
  - intros s [<-|[<-|[]]]; reflexivity.
Defined.

(** X3: two queries with the same lower case give the same list: the letter
    case of what is typed does not count. *)
Theorem filtered_query_case (toLowerCase : string -> string) (st : State)
    (q q' : string) :
  q <> "" -> q' <> "" -> toLowerCase q = toLowerCase q' ->
  filtered toLowerCase (set_searchQuery q st)
  = filtered toLowerCase (set_searchQuery q' st).
Proof.
  intros Hq Hq' E; rewrite !filtered_eq; cbn [searchQuery set_searchQuery].
  destruct (JsString.isEmpty q) eqn:Eq; [apply isEmpty_iff in Eq; contradiction|].
  destruct (JsString.isEmpty q') eqn:Eq'; [apply isEmpty_iff in Eq'; contradiction|].
  rewrite E; reflexivity.
Qed.

Lemma filtered_query_case_witness :
  filtered JsString.toLowerCaseASCII
    (set_searchQuery "APPLE" (component [stock_aapl; stock_bank] "" ""))
  = filtered JsString.toLowerCaseASCII
      (set_searchQuery "apple" (component [stock_aapl; stock_bank] "" "")).
Proof.
  apply (@filtered_query_case JsString.toLowerCaseASCII
           (component [stock_aapl; stock_bank] "" "") "APPLE" "apple").
  - discriminate.
  - discriminate.
  - reflexivity.
Defined.

(** X4: a query that holds another one, both in lower case, keeps no stock the
    other one drops: typing on narrows the list. *)
Theorem filtered_narrows (toLowerCase : string -> string) (st : State)
    (items : list Stock) (q q' : string) :
  stored st = Some items -> q <> "" -> q' <> "" ->
  occurs_in (toLowerCase q) (toLowerCase q') ->
  exists l l',
    filtered toLowerCase (set_searchQuery q st) = Some l
    /\ filtered toLowerCase (set_searchQuery q' st) = Some l'
    /\ Sublist l' l.
Proof.
  intros Hs Hq Hq' Hocc.
  assert (Hs1 : stored (set_searchQuery q st) = Some items) by exact Hs.
  assert (Hs2 : stored (set_searchQuery q' st) = Some items) by exact Hs.
  do 2 eexists; split; [|split].
  - exact (filtered_query toLowerCase (set_searchQuery q st) Hq Hs1).
  - exact (filtered_query toLowerCase (set_searchQuery q' st) Hq' Hs2).
  - cbn [searchQuery set_searchQuery]; apply filter_Sublist_impl.
    intros s _; unfold matches; rewrite !orb_true_iff, !includes_iff.
    intros [H|H]; [left|right]; exact (occurs_in_trans Hocc H).
Qed.

Lemma filtered_narrows_witness :
  exists l l',
    filtered JsString.toLowerCaseASCII
      (set_searchQuery "a" (component [stock_aapl; stock_bank] "" "")) = Some l
    /\ filtered JsString.toLowerCaseASCII
         (set_searchQuery "Ap" (component [stock_aapl; stock_bank] "" "")) = Some l'
    /\ Sublist l' l.
Proof.
  apply (@filtered_narrows JsString.toLowerCaseASCII
           (component [stock_aapl; stock_bank] "" "") [stock_aapl; stock_bank] "a" "Ap").
  - reflexivity.
  - discriminate.
  - discriminate.
  - exists "", "p"; reflexivity.
Defined.

(** ** Selections and loads *)

(** X5: a second click on the stock just selected asks nothing and changes
    nothing, whatever the first click met: a series that failed to load is
    not asked again by clicking its stock again. *)
Theorem selectStock_twice (net net' : Network) (n n' : nat) (stock : Stock)
    (st : State) :
  run net' n' (selectStock stock (snd (run net n (selectStock stock st))))
  = ([], snd (run net n (selectStock stock st))).
Proof.
  apply run_selectStock_same.
  apply selectStock_frame.
Qed.



(** X7: on a mounted component, when a stock is clicked whose symbol is
    not the current one, the kline request is answered with an array of
    rows, and nothing else runs while the request is pending, the chart
    shows the option built from that symbol and from the rows of the
    response, with no error and no loading overlay. *)
Theorem selectStock_success_shows (net : Network) (n : nat) (stock : Stock)
    (st : State) (el : Element) (res_data : KlineResponse) :
  chartRef st = Some el ->
  currentSymbol st <> symbol stock ->
  net KlineObject n (kline_url (symbol stock)) = Resolved (WithRows res_data) ->
  handed (snd (run net n (selectStock stock st)))
  = Some (renderChart_option (symbol stock) (data res_data))
  /\ currentSymbol (snd (run net n (selectStock stock st))) = symbol stock
  /\ error (snd (run net n (selectStock stock st))) = None
  /\ loading (snd (run net n (selectStock stock st))) = false.
Proof.
  intros Hm Hne Hres.
  rewrite (run_selectStock_other net n _ _ Hne), run_loadChartData, Hres.
  cbn [snd loadChartData_try].
  set (st0 := set_error None (set_loading true (set_currentSymbol (symbol stock) st))).
  assert (Hm0 : chartRef st0 = Some el) by exact Hm.
  destruct (renderChart_frame (symbol stock) (data res_data) st0)
    as (_ & _ & _ & Hc & _ & He).
  repeat split.
  - exact (renderChart_mounted (symbol stock) (data res_data) st0 Hm0).
  - cbn [currentSymbol set_loading]; rewrite Hc; reflexivity.
  - cbn [error set_loading]; rewrite He; reflexivity.
Qed.

Lemma selectStock_success_shows_witness :
  handed (snd (run (net_up [stock_aapl; stock_bank] [row_up; row_flat]) 0
                 (selectStock stock_bank (component [stock_aapl; stock_bank] "" "AAPL"))))
  = Some (renderChart_option (symbol stock_bank) [row_up; row_flat])
  /\ currentSymbol
       (snd (run (net_up [stock_aapl; stock_bank] [row_up; row_flat]) 0
               (selectStock stock_bank (component [stock_aapl; stock_bank] "" "AAPL"))))
     = symbol stock_bank
  /\ error
       (snd (run (net_up [stock_aapl; stock_bank] [row_up; row_flat]) 0
               (selectStock stock_bank (component [stock_aapl; stock_bank] "" "AAPL"))))
     = None
  /\ loading
       (snd (run (net_up [stock_aapl; stock_bank] [row_up; row_flat]) 0
               (selectStock stock_bank (component [stock_aapl; stock_bank] "" "AAPL"))))
     = false.
Proof.
  apply (@selectStock_success_shows (net_up [stock_aapl; stock_bank] [row_up; row_flat]) 0
           stock_bank (component [stock_aapl; stock_bank] "" "AAPL") EchartsDom
           (mkKline [row_up; row_flat])).
  - reflexivity.
  - vm_compute; discriminate.
  - reflexivity.
Defined.

(** X8: on a component whose chart node is not mounted a series that
    loads is dropped without a word, whether the body holds an array of
    rows or not, as long as it is not [null]: nothing is rendered, no error
    is set, and only the two flags are reset. *)
Theorem loadChartData_unmounted (net : Network) (n : nat) (symbol : string)
    (st : State) (b : KlineBody) :
  chartRef st = None ->
  b <> NoBody ->
  net KlineObject n (kline_url symbol) = Resolved b ->
  snd (run net n (loadChartData symbol st)) = set_loading false (set_error None st)
  /\ handed (snd (run net n (loadChartData symbol st))) = handed st.
Proof.
  intros Hm Hb Hres; rewrite run_loadChartData, Hres; cbn [snd].
  destruct b as [r| |]; cbn [loadChartData_try]; [| |contradiction].
  - rewrite renderChart_unmounted by exact Hm.
    split; reflexivity.
  - unfold renderChart_not_array; cbn [chartRef set_error set_loading].
    rewrite Hm; split; reflexivity.
Qed.

Lemma loadChartData_unmounted_witness :
  (snd (run (net_up [stock_aapl] [row_up]) 0 (loadChartData "AAPL" (setup None)))
   = set_loading false (set_error None (setup None))
   /\ handed (snd (run (net_up [stock_aapl] [row_up]) 0
                     (loadChartData "AAPL" (setup None))))
      = handed (setup None))
  /\ (snd (run (net_body [stock_aapl] WithoutRows) 0 (loadChartData "AAPL" (setup None)))
      = set_loading false (set_error None (setup None))
      /\ handed (snd (run (net_body [stock_aapl] WithoutRows) 0
                        (loadChartData "AAPL" (setup None))))
         = handed (setup None)).
Proof.
  split.
  - apply (@loadChartData_unmounted (net_up [stock_aapl] [row_up]) 0 "AAPL" (setup None)
             (WithRows (mkKline [row_up]))).
    + reflexivity.
    + discriminate.
    + reflexivity.
  - apply (@loadChartData_unmounted (net_body [stock_aapl] WithoutRows) 0 "AAPL"
             (setup None) WithoutRows).
    + reflexivity.
    + discriminate.
    + reflexivity.
Defined.

(** ** The chart instance *)

(** X9: on a mounted component [renderChart] leaves one chart instance, made
    on the chart node and showing the new option; the instance it replaces
    is disposed of first, and no other one is. *)
Theorem renderChart_disposes_previous (symbol : string) (data : list Item.t)
    (st : State) (el : Element) :
  chartRef st = Some el ->
  chartInstance (renderChart symbol data st)
  = Some (mkInstance el (Some (renderChart_option symbol data)))
  /\ (forall inst, chartInstance st = Some inst ->
        disposed (renderChart symbol data st) = inst :: disposed st)
  /\ (chartInstance st = None ->
        disposed (renderChart symbol data st) = disposed st).
Proof.
  intros Hm; unfold renderChart; rewrite Hm; unfold dispose.
  split; [|split].
  - destruct (chartInstance st); reflexivity.
  - intros inst ->; reflexivity.
  - intros ->; reflexivity.
Qed.

Lemma renderChart_disposes_previous_witness :
  disposed (renderChart "000001" [row_flat]
              (renderChart "AAPL" [row_up] (component [stock_aapl] "" "AAPL")))
  = [mkInstance EchartsDom (Some (renderChart_option "AAPL" [row_up]))]
  /\ disposed (renderChart "AAPL" [row_up] (component [stock_aapl] "" "AAPL")) = [].
Proof.
  split.
  - apply (proj1 (proj2 (@renderChart_disposes_previous "000001" [row_flat]
                           (renderChart "AAPL" [row_up] (component [stock_aapl] "" "AAPL"))
                           EchartsDom eq_refl))
             (mkInstance EchartsDom (Some (renderChart_option "AAPL" [row_up])))).
    reflexivity.
  - apply (proj2 (proj2 (@renderChart_disposes_previous "AAPL" [row_up]
                           (component [stock_aapl] "" "AAPL") EchartsDom eq_refl))).
    reflexivity.
Defined.

Lemma option_macd_colours (symbol : string) (data : list Item.t) :
  macd_colours (renderChart_option symbol data).
Proof.
  eexists; split; [reflexivity|].
  intros p; cbn beta.
  assert (Hrg : red <> green) by discriminate.
  split; [|split; [|split]].
  - destruct (js_gt _ _); split; try reflexivity; try discriminate;
      intros E; injection E; congruence.
  - destruct (js_gt _ _); split; try reflexivity; try discriminate;
      intros E; injection E; congruence.
  - intros E; apply js_gt_of_eqb in E; destruct E as [E _]; now rewrite E.
  - reflexivity.
Qed.

(** X10: the bar of the MACD series is red ([#ef232a]) exactly when its value
    is strictly above zero and green ([#14b143]) otherwise; a value of zero
    and a value that is not a number are green. *)
Theorem renderChart_macd_colours (symbol : string) (data : list Item.t)
    (st : State) (el : Element) :
  chartRef st = Some el ->
  exists opt, handed (renderChart symbol data st) = Some opt /\ macd_colours opt.
Proof.
  intros H; exists (renderChart_option symbol data); split.
  - exact (renderChart_mounted symbol data st H).
  - apply option_macd_colours.
Qed.

Lemma renderChart_macd_colours_witness :
  exists opt,
    handed (renderChart "AAPL" [row_up; row_flat] (component [stock_aapl] "" "AAPL")) = Some opt
    /\ macd_colours opt.
Proof.
  apply (@renderChart_macd_colours "AAPL" [row_up; row_flat]
           (component [stock_aapl] "" "AAPL") EchartsDom).
  reflexivity.
Defined.

(** ** The template and the sessions *)

Lemma selectStock_requests (net : Network) (n : nat) (stock : Stock) (st : State) :
  fst (run net n (selectStock stock st)) = []
  \/ fst (run net n (selectStock stock st)) = [kline_url (symbol stock)].
Proof.
  destruct (string_dec (currentSymbol st) (symbol stock)) as [E|E].
  - left; now rewrite (run_selectStock_same net n _ _ E).
  - right; now rewrite (run_selectStock_other net n _ _ E), run_loadChartData.
Qed.

Lemma selectStock_flags (net : Network) (n : nat) (stock : Stock) (st : State) :
  loading st = false ->
  error st = None \/ error st = Some kline_error ->
  loading (snd (run net n (selectStock stock st))) = false
  /\ (error (snd (run net n (selectStock stock st))) = None
      \/ error (snd (run net n (selectStock stock st))) = Some kline_error).
Proof.
  intros Hl He; destruct (string_dec (currentSymbol st) (symbol stock)) as [E|E].
  - rewrite (run_selectStock_same net n _ _ E); auto.
  - rewrite (run_selectStock_other net n _ _ E), run_loadChartData; cbn [snd].
    split; [reflexivity|].
    destruct (loadChartData_try_frame (symbol stock)
                (net KlineObject n (kline_url (symbol stock)))
                (set_error None (set_loading true (set_currentSymbol (symbol stock) st))))
      as (_ & _ & _ & _ & _ & Herr).
    destruct (loadChartData_try _ _ _) as [st'|st']; cbn [state_of] in Herr.
    + left; cbn [error set_loading]; rewrite Herr; reflexivity.
    + right; reflexivity.
Qed.

Lemma filtered_stored_Sublist (toLowerCase : string -> string) (st : State)
    (items l : list Stock) :
  stored st = Some items -> filtered toLowerCase st = Some l -> Sublist l items.
Proof.
  intros Hs Hf; rewrite filtered_eq, Hs in Hf.
  destruct (JsString.isEmpty (searchQuery st)); injection Hf as <-.
  - apply Sublist_refl.
  - apply filter_Sublist.
Qed.

Lemma settled_handle (toLowerCase : string -> string) (items : list Stock)
    (st : State) (e : Event) :
  settled items st ->
  settled items (snd (handle toLowerCase st e))
  /\ Forall (kline_of items) (fst (handle toLowerCase st e)).
Proof.
  intros (Hs & Hl & He & Hc); destruct e as [q|net i]; cbn [handle].
  - split; [|constructor]. repeat split; assumption.
  - destruct (filtered toLowerCase st) as [l|] eqn:Hf;
      [|split; [repeat split; assumption | constructor]].
    destruct (nth_error l i) as [stock|] eqn:Hn;
      [|split; [repeat split; assumption | constructor]].
    assert (Hin : In stock items).
    { apply (@Sublist_In _ l items stock).
      - exact (@filtered_stored_Sublist toLowerCase st items l Hs Hf).
      - exact (nth_error_In _ _ Hn). }
    destruct (selectStock_frame net 0 stock st) as (Hh & Hk & _ & Hcur).
    destruct (selectStock_flags net 0 stock st Hl He) as (Hl' & He').
    split.
    + unfold settled, stored; rewrite Hh, Hk, Hcur.
      repeat split; try assumption.
      right; exists stock; auto.
    + destruct (selectStock_requests net 0 stock st) as [->| ->]; repeat constructor.
      exists (symbol stock); split; [exists stock; auto | reflexivity].
Qed.

Lemma settled_handle_all (toLowerCase : string -> string) (items : list Stock)
    (es : list Event) (st : State) :
  settled items st ->
  settled items (snd (handle_all toLowerCase st es))
  /\ Forall (kline_of items) (fst (handle_all toLowerCase st es)).
Proof.
  revert st; induction es as [|e es IH]; intros st H; cbn [handle_all].
  - split; [exact H | constructor].
  - destruct (@settled_handle toLowerCase items st e H) as [H1 F1].
    destruct (handle toLowerCase st e) as [urls st1]; cbn [fst snd] in *.
    destruct (IH st1 H1) as [H2 F2].
    destruct (handle_all toLowerCase st1 es) as [urls' st2]; cbn [fst snd] in *.
    split; [exact H2 | apply Forall_app; auto].
Qed.

Lemma settled_mount (net : Network) (mounted : option Element) (items : list Stock) :
  net StockArray 0 list_url = Resolved items ->
  settled items (snd (run net 0 (onMounted (setup mounted))))
  /\ exists rest,
       fst (run net 0 (onMounted (setup mounted))) = list_url :: rest
       /\ Forall (kline_of items) rest.
Proof.
  intros E; unfold onMounted; rewrite (run_fetchStocks_resolved _ _ (setup mounted) E).
  destruct items as [|stock0 rest]; cbv zeta; cbn [fst snd].
  - split; [|exists []; split; [reflexivity | constructor]].
    repeat split; auto.
  - set (st' := set_heap_stocks _ _ (setup mounted)).
    destruct (selectStock_frame net 1 stock0 st') as (Hh & Hk & _ & Hcur).
    destruct (selectStock_flags net 1 stock0 st' eq_refl (or_introl eq_refl))
      as (Hl' & He').
    split.
    + unfold settled, stored; rewrite Hh, Hk, Hcur.
      repeat split; try assumption.
      right; exists stock0; simpl; auto.
    + eexists; split; [reflexivity|].
      destruct (selectStock_requests net 1 stock0 st') as [->| ->]; repeat constructor.
      exists (symbol stock0); split; [exists stock0; simpl; auto | reflexivity].
Qed.

(** X11: through a session whose list request was answered, whatever the user
    types and clicks and whatever the later requests meet: the stored list
    is the answered one, no loading overlay is left on, the error is
    [null] or the kline error, the current symbol is the empty string or a
    symbol of the list, and after the list request every request is the
    kline request of a symbol of the list. *)
Theorem session_settled (toLowerCase : string -> string) (net : Network)
    (mounted : option Element) (items : list Stock) (es : list Event) :
  net StockArray 0 list_url = Resolved items ->
  settled items (snd (session toLowerCase net mounted es))
  /\ exists rest,
       fst (session toLowerCase net mounted es) = list_url :: rest
       /\ Forall (kline_of items) rest.
Proof.
  intros E; unfold session.
  destruct (@settled_mount net mounted items E) as (H0 & rest & Hr & F0).
  destruct (run net 0 (onMounted (setup mounted))) as [urls st]; cbn [fst snd] in *.
  destruct (@settled_handle_all toLowerCase items es st H0) as [H1 F1].
  destruct (handle_all toLowerCase st es) as [urls' st']; cbn [fst snd] in *.
  split; [exact H1|].
  exists (rest ++ urls')%list; split; [now rewrite Hr | apply Forall_app; auto].
Qed.

Lemma session_settled_witness :
  settled [stock_aapl; stock_bank]
    (snd (session JsString.toLowerCaseASCII
            (net_up [stock_aapl; stock_bank] [row_up; row_flat]) (Some EchartsDom)
            [Input "0"; Click net_down 0; Input ""; Click net_down 0; Click net_down 7]))
  /\ exists rest,
       fst (session JsString.toLowerCaseASCII
              (net_up [stock_aapl; stock_bank] [row_up; row_flat]) (Some EchartsDom)
              [Input "0"; Click net_down 0; Input ""; Click net_down 0; Click net_down 7])
       = list_url :: rest
       /\ Forall (kline_of [stock_aapl; stock_bank]) rest.
Proof.
  apply (@session_settled JsString.toLowerCaseASCII
           (net_up [stock_aapl; stock_bank] [row_up; row_flat]) (Some EchartsDom)
           [stock_aapl; stock_bank]).
  reflexivity.
Defined.

Example session_requests :
  fst (session JsString.toLowerCaseASCII
         (net_up [stock_aapl; stock_bank] [row_up; row_flat]) (Some EchartsDom)
         [Input "0"; Click net_down 0; Input ""; Click net_down 0; Click net_down 7])
  = [list_url; kline_url "AAPL"; kline_url "000001"; kline_url "AAPL"].
Proof. vm_compute; reflexivity. Qed.

Lemma failed_handle_all (toLowerCase : string -> string) (es : list Event)
    (st : State) :
  stored st = Some [] ->
  handle_all toLowerCase st es = ([], fold_left
    (fun s e => match e with Input q => set_searchQuery q s | Click _ _ => s end) es st).
Proof.
  revert st; induction es as [|e es IH]; intros st Hs; cbn [handle_all fold_left];
    [reflexivity|].
  assert (Hf : filtered toLowerCase st = Some []).
  { rewrite filtered_eq, Hs; destruct (JsString.isEmpty (searchQuery st)); reflexivity. }
  destruct e as [q|net i]; cbn [handle].
  - rewrite (IH (set_searchQuery q st) Hs); reflexivity.
  - rewrite Hf; destruct i; cbn [nth_error]; rewrite (IH st Hs); reflexivity.
Qed.

Lemma typing_frame (es : list Event) (st : State) :
  stored (fold_left
    (fun s e => match e with Input q => set_searchQuery q s | Click _ _ => s end) es st)
  = stored st
  /\ error (fold_left
    (fun s e => match e with Input q => set_searchQuery q s | Click _ _ => s end) es st)
  = error st
  /\ currentSymbol (fold_left
    (fun s e => match e with Input q => set_searchQuery q s | Click _ _ => s end) es st)
  = currentSymbol st.
Proof.
  revert st; induction es as [|e es IH]; intros st; cbn [fold_left]; [auto|].
  destruct e as [q|net i]; [|apply IH].
  destruct (IH (set_searchQuery q st)) as (H1 & H2 & H3); auto.
Qed.

(** X12: when the list request fails the session makes no other request,
    whatever the user types and clicks: the side bar stays empty, nothing
    is selected, and the error overlay keeps the error of the list. *)
Theorem session_list_failure (toLowerCase : string -> string) (net : Network)
    (mounted : option Element) (es : list Event) :
  net StockArray 0 list_url = Rejected ->
  fst (session toLowerCase net mounted es) = [list_url]
  /\ stock_list (template toLowerCase (snd (session toLowerCase net mounted es))) = []
  /\ error_overlay (template toLowerCase (snd (session toLowerCase net mounted es)))
     = Some list_error
  /\ currentSymbol (snd (session toLowerCase net mounted es)) = "".
Proof.
  intros E; unfold session, onMounted.
  rewrite (run_fetchStocks_rejected _ _ (setup mounted) E).
  set (st0 := set_error _ (setup mounted)).
  assert (Hs0 : stored st0 = Some []) by reflexivity.
  rewrite (failed_handle_all toLowerCase es st0 Hs0); cbn [fst snd].
  destruct (typing_frame es st0) as (Hs & He & Hc).
  split; [reflexivity|split; [|split]].
  - unfold template; cbn [stock_list]; rewrite filtered_eq, Hs, Hs0.
    destruct (JsString.isEmpty _); reflexivity.
  - unfold template; cbn [error_overlay]; rewrite He; reflexivity.
  - rewrite Hc; reflexivity.
Qed.

Lemma session_list_failure_witness :
  fst (session JsString.toLowerCaseASCII net_down (Some EchartsDom)
         [Input "a"; Click (net_up [stock_aapl] [row_up]) 0; Input ""])
  = [list_url]
  /\ stock_list
       (template JsString.toLowerCaseASCII
          (snd (session JsString.toLowerCaseASCII net_down (Some EchartsDom)
                  [Input "a"; Click (net_up [stock_aapl] [row_up]) 0; Input ""])))
     = []
  /\ error_overlay
       (template JsString.toLowerCaseASCII
          (snd (session JsString.toLowerCaseASCII net_down (Some EchartsDom)
                  [Input "a"; Click (net_up [stock_aapl] [row_up]) 0; Input ""])))
     = Some list_error
  /\ currentSymbol
       (snd (session JsString.toLowerCaseASCII net_down (Some EchartsDom)
               [Input "a"; Click (net_up [stock_aapl] [row_up]) 0; Input ""]))
     = "".
Proof.
  apply (@session_list_failure JsString.toLowerCaseASCII net_down (Some EchartsDom)
           [Input "a"; Click (net_up [stock_aapl] [row_up]) 0; Input ""]).
  reflexivity.
Defined.

(** X13: after a click on the [i]-th item shown, the side bar shows the same
    items, and marks as active exactly those that bear the symbol of the
    clicked stock, the clicked item among them, whatever its series met. *)
Theorem template_after_click (toLowerCase : string -> string) (net : Network)
    (st : State) (i : nat) (items : list Stock) (stock : Stock) :
  filtered toLowerCase st = Some items ->
  nth_error items i = Some stock ->
  stock_list (template toLowerCase (snd (handle toLowerCase st (Click net i))))
  = map (fun s => mkStockItem (symbol s) (name s) (String.eqb (symbol stock) (symbol s)))
      items
  /\ nth_error
       (stock_list (template toLowerCase (snd (handle toLowerCase st (Click net i))))) i
     = Some (mkStockItem (symbol stock) (name stock) true).
Proof.
  intros Hf Hn.
  assert (Hlist :
    stock_list (template toLowerCase (snd (handle toLowerCase st (Click net i))))
    = map (fun s => mkStockItem (symbol s) (name s) (String.eqb (symbol stock) (symbol s)))
        items).
  { cbn [handle]; rewrite Hf, Hn.
    destruct (selectStock_frame net 0 stock st) as (Hh & Hk & Hq & Hcur).
    unfold template; cbn [stock_list].
    assert (Hf' : filtered toLowerCase (snd (run net 0 (selectStock stock st)))
                  = Some items).
    { rewrite filtered_eq; unfold stored; rewrite Hh, Hk, Hq.
      rewrite <- Hf, filtered_eq; reflexivity. }
    rewrite Hf'; apply map_ext; intros s.
    unfold stock_item; rewrite Hcur; reflexivity. }
  split; [exact Hlist|].
  rewrite Hlist, (nth_error_map_some _ _ _ Hn), String.eqb_refl; reflexivity.
Qed.

Lemma template_after_click_witness :
  stock_list
    (template JsString.toLowerCaseASCII
       (snd (handle JsString.toLowerCaseASCII
               (component [stock_aapl; stock_bank] "" "AAPL") (Click net_down 1))))
  = map (fun s => mkStockItem (symbol s) (name s)
                    (String.eqb (symbol stock_bank) (symbol s)))
      [stock_aapl; stock_bank]
  /\ nth_error
       (stock_list
          (template JsString.toLowerCaseASCII
             (snd (handle JsString.toLowerCaseASCII
                     (component [stock_aapl; stock_bank] "" "AAPL") (Click net_down 1))))) 1
     = Some (mkStockItem (symbol stock_bank) (name stock_bank) true).
Proof.
  apply (@template_after_click JsString.toLowerCaseASCII net_down
           (component [stock_aapl; stock_bank] "" "AAPL") 1
           [stock_aapl; stock_bank] stock_bank).
  - reflexivity.
  - reflexivity.
Defined.

(** ** Bodies without rows, and overlapping requests *)

(** X14: on a mounted component, a kline request that is answered with a
    body that holds no array of rows ends with the kline error; by then
    [renderChart] has disposed of the chart instance and made a new one,
    which shows nothing: unlike a request that fails, such an answer costs
    the chart that was shown. *)
Theorem loadChartData_without_rows (net : Network) (n : nat) (symbol : string)
    (st : State) (el : Element) :
  chartRef st = Some el ->
  net KlineObject n (kline_url symbol) = Resolved WithoutRows ->
  error (snd (run net n (loadChartData symbol st))) = Some kline_error
  /\ loading (snd (run net n (loadChartData symbol st))) = false
  /\ chartInstance (snd (run net n (loadChartData symbol st))) = Some (echarts_init el)
  /\ handed (snd (run net n (loadChartData symbol st))) = None
  /\ (forall inst, chartInstance st = Some inst ->
        disposed (snd (run net n (loadChartData symbol st))) = inst :: disposed st).
Proof.
  intros Hm Hres; rewrite run_loadChartData, Hres.
  cbn [snd loadChartData_try]; unfold renderChart_not_array, dispose.
  cbn [chartRef chartInstance set_error set_loading]; rewrite Hm.
  repeat split.
  intros inst ->; reflexivity.
Qed.

Lemma loadChartData_without_rows_witness :
  error (snd (run (net_body [stock_aapl] WithoutRows) 0
                (loadChartData "AAPL"
                   (renderChart "AAPL" [row_up] (component [stock_aapl] "" "AAPL")))))
  = Some kline_error
  /\ loading (snd (run (net_body [stock_aapl] WithoutRows) 0
                     (loadChartData "AAPL"
                        (renderChart "AAPL" [row_up] (component [stock_aapl] "" "AAPL")))))
     = false
  /\ chartInstance
       (snd (run (net_body [stock_aapl] WithoutRows) 0
               (loadChartData "AAPL"
                  (renderChart "AAPL" [row_up] (component [stock_aapl] "" "AAPL")))))
     = Some (echarts_init EchartsDom)
  /\ handed
       (snd (run (net_body [stock_aapl] WithoutRows) 0
               (loadChartData "AAPL"
                  (renderChart "AAPL" [row_up] (component [stock_aapl] "" "AAPL")))))
     = None
  /\ disposed
       (snd (run (net_body [stock_aapl] WithoutRows) 0
               (loadChartData "AAPL"
                  (renderChart "AAPL" [row_up] (component [stock_aapl] "" "AAPL")))))
     = [mkInstance EchartsDom (Some (renderChart_option "AAPL" [row_up]))].
Proof.
  destruct (@loadChartData_without_rows (net_body [stock_aapl] WithoutRows) 0 "AAPL"
              (renderChart "AAPL" [row_up] (component [stock_aapl] "" "AAPL"))
              EchartsDom eq_refl eq_refl) as (H1 & H2 & H3 & H4 & H5).
  split; [exact H1|]. split; [exact H2|]. split; [exact H3|]. split; [exact H4|].
  exact (H5 (mkInstance EchartsDom (Some (renderChart_option "AAPL" [row_up]))) eq_refl).
Defined.

Lemma renderChart_chartRef (symbol : string) (data : list Item.t) (st : State) :
  chartRef (renderChart symbol data st) = chartRef st.
Proof.
  unfold renderChart, dispose.
  destruct (chartRef st) eqn:E; destruct (chartInstance st); simpl; auto.
Qed.

(** X15: a second stock is clicked while the series of a first one is
    still awaited, and the second series arrives first.  Both requests are
    made, none is cancelled; when both are answered with rows, on a mounted
    component, the second stock is the current one and the chart shows the
    series of the first. *)
Theorem selectStock_overlap (net : Network) (first second : Stock) (st : State)
    (el : Element) (rows1 rows2 : KlineResponse) :
  chartRef st = Some el ->
  currentSymbol st <> symbol first ->
  symbol first <> symbol second ->
  net KlineObject 0 (kline_url (symbol first)) = Resolved (WithRows rows1) ->
  net KlineObject 1 (kline_url (symbol second)) = Resolved (WithRows rows2) ->
  fst (overlap net (selectStock first st) (selectStock second))
  = [kline_url (symbol first); kline_url (symbol second)]
  /\ currentSymbol (snd (overlap net (selectStock first st) (selectStock second)))
     = symbol second
  /\ handed (snd (overlap net (selectStock first st) (selectStock second)))
     = Some (renderChart_option (symbol first) (data rows1))
  /\ loading (snd (overlap net (selectStock first st) (selectStock second))) = false
  /\ error (snd (overlap net (selectStock first st) (selectStock second))) = None.
Proof.
  intros Hm Hne Hdiff H1 H2.
  assert (Hp : selectStock first st
               = loadChartData (symbol first) (set_currentSymbol (symbol first) st)).
  { unfold selectStock; apply String.eqb_neq in Hne; rewrite Hne; reflexivity. }
  rewrite Hp; unfold loadChartData at 1 2 3 4 5; cbn [overlap].
  change (API_BASE ++ "/stocks/" ++ symbol first ++ "/kline")
    with (kline_url (symbol first)).
  set (pending := set_error None (set_loading true (set_currentSymbol (symbol first) st))).
  assert (Hne2 : currentSymbol pending <> symbol second) by exact Hdiff.
  rewrite (run_selectStock_other net 1 second pending Hne2), run_loadChartData, H2, H1.
  cbn [List.length run fst snd app loadChartData_try].
  set (st2 := renderChart (symbol second) (data rows2) _).
  destruct (renderChart_frame (symbol second) (data rows2)
              (set_error None (set_loading true (set_currentSymbol (symbol second) pending))))
    as (_ & _ & _ & Hc2 & _ & He2).
  fold st2 in Hc2, He2.
  set (st1 := renderChart (symbol first) (data rows1) (set_loading false st2)).
  destruct (renderChart_frame (symbol first) (data rows1) (set_loading false st2))
    as (_ & _ & _ & Hc1 & _ & He1).
  fold st1 in Hc1, He1.
  assert (Hm1 : chartRef (set_loading false st2) = Some el).
  { cbn [chartRef set_loading]; unfold st2; rewrite renderChart_chartRef; exact Hm. }
  split; [reflexivity|split; [|split; [|split]]].
  - cbn [currentSymbol set_loading]; rewrite Hc1; cbn [currentSymbol set_loading].
    rewrite Hc2; reflexivity.
  - exact (renderChart_mounted (symbol first) (data rows1) (set_loading false st2) Hm1).
  - reflexivity.
  - cbn [error set_loading]; rewrite He1; cbn [error set_loading].
    rewrite He2; reflexivity.
Qed.

Lemma selectStock_overlap_witness :
  fst (overlap (net_up [stock_aapl; stock_bank] [row_up; row_flat])
         (selectStock stock_aapl (component [stock_aapl; stock_bank] "" ""))
         (selectStock stock_bank))
  = [kline_url (symbol stock_aapl); kline_url (symbol stock_bank)]
  /\ currentSymbol
       (snd (overlap (net_up [stock_aapl; stock_bank] [row_up; row_flat])
               (selectStock stock_aapl (component [stock_aapl; stock_bank] "" ""))
               (selectStock stock_bank)))
     = symbol stock_bank
  /\ handed
       (snd (overlap (net_up [stock_aapl; stock_bank] [row_up; row_flat])
               (selectStock stock_aapl (component [stock_aapl; stock_bank] "" ""))
               (selectStock stock_bank)))
     = Some (renderChart_option (symbol stock_aapl) (data (mkKline [row_up; row_flat])))
  /\ loading
       (snd (overlap (net_up [stock_aapl; stock_bank] [row_up; row_flat])
               (selectStock stock_aapl (component [stock_aapl; stock_bank] "" ""))
               (selectStock stock_bank)))
     = false
  /\ error
       (snd (overlap (net_up [stock_aapl; stock_bank] [row_up; row_flat])
               (selectStock stock_aapl (component [stock_aapl; stock_bank] "" ""))
               (selectStock stock_bank)))
     = None.
Proof.
  apply (@selectStock_overlap (net_up [stock_aapl; stock_bank] [row_up; row_flat])
           stock_aapl stock_bank (component [stock_aapl; stock_bank] "" "") EchartsDom
           (mkKline [row_up; row_flat]) (mkKline [row_up; row_flat])).
  - reflexivity.
  - vm_compute; discriminate.
  - vm_compute; discriminate.
  - reflexivity.
  - reflexivity.
Defined.

(** The same two clicks, the second after the first series has come: the
    chart shows the series of the current stock. *)
Example clicks_in_turn :
  handed
    (snd (run (net_up [stock_aapl; stock_bank] [row_up; row_flat]) 1
            (selectStock stock_bank
               (snd (run (net_up [stock_aapl; stock_bank] [row_up; row_flat]) 0
                       (selectStock stock_aapl
                          (component [stock_aapl; stock_bank] "" "")))))))
  = Some (renderChart_option (symbol stock_bank) [row_up; row_flat]).
Proof. reflexivity. Qed.
